(** * Agent-clipboard: result store, clipboard, extractor and template renderer

    A shallow embedding of [clipboard.py], [template.py] and the tool-call
    dispatcher of [agent.py], followed by the properties of the reference
    and substitution subsystem.

    Conventions of the embedding.
    - A Python [str] is a Rocq [string]; a character is a code point in
      [0, 255] (the Latin-1 range of Unicode).  The character classes below
      are Python's on that range.  Text with larger code points is outside
      the model.
    - A Python [int] is a [Z].  Floats are outside the model, and so are
      integers of more than 4300 decimal digits, which [str] and [int]
      refuse to convert under the default limit of the interpreter.
    - A [dict] is an association list in insertion order, as iteration
      order is observable ([list_slots], the listings in error messages).
    - A raised exception is the [Raise] case of [result]; a method that
      mutates [self] takes the object and returns the new one, also when it
      raises.
    - Calls to [logger.info] do not touch the program state and are left
      out. *)

From Stdlib Require Import String Ascii List ZArith Lia Bool Arith.
From Stdlib Require Import DecimalString DecimalN DecimalZ.
Import ListNotations.

Open Scope string_scope.
Open Scope nat_scope.

(** ** Python strings *)

Module PyStr.

Definition code (c : ascii) : nat := nat_of_ascii c.

(** [str.isspace] on one character. *)
Definition isspace (c : ascii) : bool :=
  let n := code c in
  ((9 <=? n) && (n <=? 13)) || ((28 <=? n) && (n <=? 32))
  || (n =? 133) || (n =? 160).

(** The ASCII decimal digits. *)
Definition is_ascii_digit (c : ascii) : bool :=
  let n := code c in (48 <=? n) && (n <=? 57).

(** [str.isdigit] on one character: the ASCII digits and the superscripts
    two, three and one. *)
Definition isdigit_char (c : ascii) : bool :=
  let n := code c in
  is_ascii_digit c || (n =? 178) || (n =? 179) || (n =? 185).

(** The class [\w] of the [re] module on [str] patterns: alphanumeric
    characters and the underscore. *)
Definition is_word (c : ascii) : bool :=
  let n := code c in
  is_ascii_digit c
  || ((65 <=? n) && (n <=? 90)) || (n =? 95) || ((97 <=? n) && (n <=? 122))
  || (n =? 170) || (n =? 178) || (n =? 179) || (n =? 181) || (n =? 185)
  || (n =? 186) || ((188 <=? n) && (n <=? 190))
  || ((192 <=? n) && (n <=? 214)) || ((216 <=? n) && (n <=? 246))
  || (248 <=? n).

Fixpoint all (p : ascii -> bool) (s : string) : bool :=
  match s with
  | EmptyString => true
  | String c s' => p c && all p s'
  end.

Definition nonempty (s : string) : bool :=
  match s with EmptyString => false | String _ _ => true end.

(** [s.isdigit()]: at least one character, all of them digits. *)
Definition isdigit (s : string) : bool := nonempty s && all isdigit_char s.

(** [c in s] for a one-character [c]. *)
Fixpoint contains_char (c : ascii) (s : string) : bool :=
  match s with
  | EmptyString => false
  | String d s' => Ascii.eqb d c || contains_char c s'
  end.

Fixpoint lstrip (s : string) : string :=
  match s with
  | EmptyString => EmptyString
  | String c s' => if isspace c then lstrip s' else s
  end.

Fixpoint rstrip (s : string) : string :=
  match s with
  | EmptyString => EmptyString
  | String c s' =>
      match rstrip s' with
      | EmptyString => if isspace c then EmptyString else String c EmptyString
      | r => String c r
      end
  end.

(** [s.strip()] *)
Definition strip (s : string) : string := rstrip (lstrip s).

(** [s.split(sep)] for a one-character separator. *)
Fixpoint split (sep : ascii) (s : string) : list string :=
  match s with
  | EmptyString => [EmptyString]
  | String c s' =>
      if Ascii.eqb c sep then EmptyString :: split sep s'
      else match split sep s' with
           | h :: t => String c h :: t
           | [] => [String c EmptyString]
           end
  end.

(** [s.rsplit(sep, 1)] for a one-character separator occurring in [s]:
    the text before and after the last separator; [None] when [s] has no
    separator. *)
Fixpoint rsplit1 (sep : ascii) (s : string) : option (string * string) :=
  match s with
  | EmptyString => None
  | String c s' =>
      match rsplit1 sep s' with
      | Some (a, b) => Some (String c a, b)
      | None => if Ascii.eqb c sep then Some (EmptyString, s') else None
      end
  end.

(** [sep.join(parts)] *)
Definition join (sep : string) (parts : list string) : string :=
  String.concat sep parts.

Definition len (s : string) : Z := Z.of_nat (String.length s).

(** [str(n)] for an [int]. *)
Definition of_int (z : Z) : string := NilZero.string_of_int (Z.to_int z).

(** [int(s)] for a string of ASCII decimal digits; [None] stands for the
    [ValueError] that [int] raises on anything else that passes
    [isdigit].  Under its default limit [int] also refuses a text of more
    than 4300 digits; [to_int] reads a text of any length, and stands for
    [int] on the texts up to that length. *)
Definition to_int (s : string) : option Z :=
  if nonempty s && all is_ascii_digit s then
    match NilEmpty.uint_of_string s with
    | Some d => Some (Z.of_N (N.of_uint d))
    | None => None
    end
  else None.

Definition hex_digit (n : nat) : ascii :=
  nth n ["0"; "1"; "2"; "3"; "4"; "5"; "6"; "7"; "8"; "9";
         "a"; "b"; "c"; "d"; "e"; "f"]%char "0"%char.

Definition quote1 : ascii := "'"%char.
Definition quote2 : ascii := "034"%char.
Definition backslash : ascii := "\"%char.

(** [str.isprintable] on one character. *)
Definition isprintable (c : ascii) : bool :=
  let n := code c in
  (32 <=? n) && negb (n =? 127) && negb ((128 <=? n) && (n <=? 160))
  && negb (n =? 173).

Definition repr_char (q : ascii) (c : ascii) : string :=
  let n := code c in
  if Ascii.eqb c q || Ascii.eqb c backslash then String backslash (String c "")
  else if n =? 9 then String backslash "t"
  else if n =? 10 then String backslash "n"
  else if n =? 13 then String backslash "r"
  else if isprintable c then String c ""
  else String backslash
         (String "x" (String (hex_digit (n / 16)) (String (hex_digit (n mod 16)) ""))).

Fixpoint repr_body (q : ascii) (s : string) : string :=
  match s with
  | EmptyString => EmptyString
  | String c s' => repr_char q c ++ repr_body q s'
  end.

(** [repr(s)] for a [str]: single quotes, unless the text has a single
    quote and no double quote. *)
Definition repr (s : string) : string :=
  let q := if contains_char quote1 s && negb (contains_char quote2 s)
           then quote2 else quote1 in
  String q (repr_body q s ++ String q "").

(** [s[:n]] for [n >= 0]. *)
Fixpoint take (n : nat) (s : string) : string :=
  match n, s with
  | S k, String c s' => String c (take k s')
  | _, _ => EmptyString
  end.

End PyStr.

(** ** JSON-like Python values *)

#[warnings="-register-all"]
Inductive value : Type :=
| VNone
| VBool (b : bool)
| VInt (z : Z)
| VStr (s : string)
| VList (l : list value)
| VDict (d : list (string * value)).

(** [repr(v)] *)
Fixpoint py_repr (v : value) : string :=
  match v with
  | VNone => "None"
  | VBool true => "True"
  | VBool false => "False"
  | VInt z => PyStr.of_int z
  | VStr s => PyStr.repr s
  | VList l => "[" ++ PyStr.join ", " (map py_repr l) ++ "]"
  | VDict d =>
      "{" ++ PyStr.join ", "
               (map (fun kv => PyStr.repr (fst kv) ++ ": " ++ py_repr (snd kv)) d)
          ++ "}"
  end.

(** [str(v)] *)
Definition py_str (v : value) : string :=
  match v with
  | VStr s => s
  | _ => py_repr v
  end.


(** ** Exceptions *)

(** The exceptions the modelled code raises, with the message they are
    built from where the code builds one.  [Other] is any exception of an
    external collaborator. *)
Inductive exn : Type :=
| KeyError (msg : string)
| ValueError (msg : string)
| IndexError (msg : string)
| TypeError
| AttributeError
| Other (name msg : string).

Inductive result (A : Type) : Type :=
| Ok (a : A)
| Raise (e : exn).

Arguments Ok {A} a.
Arguments Raise {A} e.

Definition bind {A B : Type} (r : result A) (k : A -> result B) : result B :=
  match r with
  | Ok a => k a
  | Raise e => Raise e
  end.

Notation "x <- e ;; k" := (bind e (fun x => k))
  (at level 61, e at next level, right associativity).

(** ** Python containers *)

(** A [dict] with [str] keys, in insertion order. *)
Module Dict.

Definition t (V : Type) : Type := list (string * V).

Section Ops.
Context {V : Type}.

(** [d.get(k)] *)
Fixpoint get (d : t V) (k : string) : option V :=
  match d with
  | [] => None
  | (k', v) :: d' => if String.eqb k' k then Some v else get d' k
  end.

(** [k in d] *)
Definition contains (d : t V) (k : string) : bool :=
  match get d k with Some _ => true | None => false end.

(** [d.get(k, default)] *)
Definition get_default (d : t V) (k : string) (default : V) : V :=
  match get d k with Some v => v | None => default end.

(** [d[k] = v]: an existing key keeps its position, a new one goes
    last. *)
Fixpoint setitem (d : t V) (k : string) (v : V) : t V :=
  match d with
  | [] => [(k, v)]
  | (k', v') :: d' =>
      if String.eqb k' k then (k, v) :: d' else (k', v') :: setitem d' k v
  end.

(** [d.pop(k, None)], the dictionary afterwards. *)
Fixpoint pop (d : t V) (k : string) : t V :=
  match d with
  | [] => []
  | (k', v') :: d' =>
      if String.eqb k' k then d' else (k', v') :: pop d' k
  end.

Definition keys (d : t V) : list string := map fst d.
Definition values (d : t V) : list V := map snd d.
Definition items (d : t V) : list (string * V) := d.

End Ops.

End Dict.

(** [sum(xs)] over integers. *)
Definition py_sum (xs : list Z) : Z := fold_left Z.add xs 0%Z.

(** [xs[idx]] on a list: a negative index counts from the end; [None] is
    the [IndexError]. *)
Definition list_index {A : Type} (xs : list A) (idx : Z) : option A :=
  let n := Z.of_nat (length xs) in
  let i := if (idx <? 0)%Z then (idx + n)%Z else idx in
  if ((i <? 0) || (n <=? i))%Z then None else nth_error xs (Z.to_nat i).

(** [xs[lo:hi]] on a list. *)
Definition list_slice {A : Type} (xs : list A) (lo hi : Z) : list A :=
  let n := Z.of_nat (length xs) in
  let clamp i := if (i <? 0)%Z then Z.max 0 (i + n) else Z.min i n in
  firstn (Z.to_nat (clamp hi - clamp lo)) (skipn (Z.to_nat (clamp lo)) xs).

(** ** clipboard.py: [ClipboardState] *)

Record ClipboardState : Type := mkClipboard {
  _slots : Dict.t value;
  _bytes_stored : Dict.t Z;
  _usage_count : Dict.t Z
}.

Module Clipboard.

(** [ClipboardState()] *)
Definition init : ClipboardState := mkClipboard [] [] [].

Definition set (slot : string) (v : value) (cb : ClipboardState)
  : ClipboardState :=
  let size := match v with
              | VStr s => PyStr.len s
              | _ => PyStr.len (py_str v)
              end in
  mkClipboard (Dict.setitem (_slots cb) slot v)
              (Dict.setitem (_bytes_stored cb) slot size)
              (Dict.setitem (_usage_count cb) slot 0%Z).

Definition get (slot : string) (cb : ClipboardState) : result value :=
  match Dict.get (_slots cb) slot with
  | None =>
      Raise (KeyError ("Clipboard slot '" ++ slot ++ "' not found. Available: "
                       ++ py_str (VList (map VStr (Dict.keys (_slots cb))))))
  | Some v => Ok v
  end.

Definition has (slot : string) (cb : ClipboardState) : bool :=
  Dict.contains (_slots cb) slot.

(** [clear(slot)]: [None] is the default argument.  The test [if slot:]
    is false for [None] and for the empty string. *)
Definition clear (slot : option string) (cb : ClipboardState)
  : ClipboardState :=
  match slot with
  | Some (String c s) =>
      mkClipboard (Dict.pop (_slots cb) (String c s))
                  (_bytes_stored cb) (_usage_count cb)
  | _ => mkClipboard [] (_bytes_stored cb) (_usage_count cb)
  end.

Definition list_slots (cb : ClipboardState) : list string :=
  Dict.keys (_slots cb).

Definition record_usage (slot : string) (cb : ClipboardState)
  : ClipboardState :=
  match Dict.get (_usage_count cb) slot with
  | Some n =>
      mkClipboard (_slots cb) (_bytes_stored cb)
                  (Dict.setitem (_usage_count cb) slot (n + 1)%Z)
  | None => cb
  end.

Record estimate : Type := mkEstimate {
  bytes_stored : Z;
  bytes_substituted : Z;
  estimated_tokens_saved : Z;
  reference_overhead_tokens : Z;
  net_tokens_saved : Z;
  slots_usage : Dict.t Z;
  slots_bytes : Dict.t Z
}.

Definition chars_per_token : Z := 4.

Definition get_token_savings_estimate (cb : ClipboardState) : estimate :=
  let total_bytes_stored := py_sum (Dict.values (_bytes_stored cb)) in
  let bytes_substituted :=
    py_sum (map (fun sc => (Dict.get_default (_bytes_stored cb) (fst sc) 0
                            * snd sc)%Z)
                (Dict.items (_usage_count cb))) in
  let estimated_tokens_saved := (bytes_substituted / chars_per_token)%Z in
  let reference_overhead :=
    py_sum (map (fun sc => ((4 + PyStr.len (fst sc)) * snd sc)%Z)
                (Dict.items (_usage_count cb))) in
  let reference_tokens := (reference_overhead / chars_per_token)%Z in
  mkEstimate total_bytes_stored bytes_substituted estimated_tokens_saved
             reference_tokens
             (estimated_tokens_saved - reference_tokens)%Z
             (_usage_count cb) (_bytes_stored cb).

End Clipboard.

(** ** clipboard.py: [ToolResultStore] *)

(** The entry [{"tool": tool_name, "result": result}]. *)
Record entry : Type := mkEntry {
  tool : string;
  result_of : value
}.

Record ToolResultStore : Type := mkStore {
  _by_tool : Dict.t (list entry);
  _last : option entry
}.

Module Store.

(** [ToolResultStore()] *)
Definition init : ToolResultStore := mkStore [] None.

(** The store after [store(tool_name, result)]. *)
Definition stored (tool_name : string) (r : value) (st : ToolResultStore)
  : ToolResultStore :=
  let e := mkEntry tool_name r in
  let by_tool :=
    if Dict.contains (_by_tool st) tool_name then _by_tool st
    else Dict.setitem (_by_tool st) tool_name [] in
  mkStore (Dict.setitem by_tool tool_name
             (Dict.get_default by_tool tool_name [] ++ [e])%list)
          (Some e).

(** The local [idx] of [store], which goes to the log only. *)
Definition store_idx (tool_name : string) (r : value) (st : ToolResultStore)
  : Z :=
  (Z.of_nat (length (Dict.get_default (_by_tool (stored tool_name r st))
                                      tool_name []))
   - 1)%Z.

(** [store(tool_name, result)]: the value returned, which is [None] as
    the method has no [return], and the store afterwards. *)
Definition store (tool_name : string) (r : value) (st : ToolResultStore)
  : value * ToolResultStore :=
  (VNone, stored tool_name r st).

Definition colon : ascii := ":"%char.

Definition get (source : string) (st : ToolResultStore) : result entry :=
  if String.eqb source "last" then
    match _last st with
    | None => Raise (KeyError "No tool results stored yet")
    | Some e => Ok e
    end
  else
    ti <- match PyStr.rsplit1 colon source with
          | Some (tool_name, idx_str) =>
              if PyStr.isdigit idx_str then
                match PyStr.to_int idx_str with
                | Some idx => Ok (tool_name, idx)
                | None =>
                    Raise (ValueError
                             ("invalid literal for int() with base 10: "
                              ++ PyStr.repr idx_str))
                end
              else Raise (KeyError ("Invalid index in source '" ++ source ++ "'"))
          | None => Ok (source, (-1)%Z)
          end ;;
    let tool_name := fst ti in
    let idx := snd ti in
    match Dict.get (_by_tool st) tool_name with
    | None =>
        Raise (KeyError ("No results for tool '" ++ tool_name ++ "'. Available: "
                         ++ py_str (VList (map VStr (Dict.keys (_by_tool st))))))
    | Some results =>
        match list_index results idx with
        | Some e => Ok e
        | None =>
            Raise (KeyError ("Index " ++ PyStr.of_int idx ++ " out of range for '"
                             ++ tool_name ++ "' (has "
                             ++ PyStr.of_int (Z.of_nat (length results))
                             ++ " results)"))
        end
    end.

Definition list_sources (st : ToolResultStore) : list string :=
  flat_map
    (fun tr =>
       if length (snd tr) =? 1 then [fst tr]
       else map (fun i => fst tr ++ ":" ++ PyStr.of_int (Z.of_nat i))
                (seq 0 (length (snd tr))))
    (Dict.items (_by_tool st)).

End Store.

(** ** clipboard.py: the extractor and [execute_copy] *)

Definition newline : ascii := "010"%char.

(** [d[k]] on a value: [KeyError(k)] for a missing key, [TypeError] when
    [d] is not a [dict]. *)
Definition getitem (d : value) (k : string) : result value :=
  match d with
  | VDict kvs =>
      match Dict.get kvs k with
      | Some v => Ok v
      | None => Raise (KeyError k)
      end
  | _ => Raise TypeError
  end.

(** A value used where the code needs a [str]. *)
Definition as_str (v : value) : result string :=
  match v with
  | VStr s => Ok s
  | _ => Raise TypeError
  end.

(** A value used in integer arithmetic; [bool] is a subclass of [int]. *)
Definition as_int (v : value) : result Z :=
  match v with
  | VInt z => Ok z
  | VBool b => Ok (if b then 1 else 0)%Z
  | _ => Raise TypeError
  end.

(** [k in xs] for a [str] [k] and a list [xs]. *)
Definition list_has_str (k : string) (xs : list value) : bool :=
  existsb (fun x => match x with VStr s => String.eqb s k | _ => false end) xs.

Definition _truncate (v : value) (max_len : nat) : string :=
  let s := match v with VStr s => s | _ => py_repr v end in
  if max_len <? String.length s then PyStr.take max_len s ++ "..." else s.

Definition _get_text_content (r : value) : result string :=
  match r with
  | VStr s => Ok s
  | VDict d =>
      match Dict.get d "content" with
      | Some v => Ok (py_str v)
      | None =>
          match Dict.get d "text" with
          | Some v => Ok (py_str v)
          | None =>
              match Dict.get d "data" with
              | Some v => Ok (py_str v)
              | None => Ok (py_str r)
              end
          end
      end
  | VList xs =>
      (* a list has no item ["content"]: the subscript raises *)
      if list_has_str "content" xs || list_has_str "text" xs
         || list_has_str "data" xs
      then Raise TypeError else Ok (py_str r)
  | _ => Raise TypeError
  end.

Definition _extract_by_lines (text : string) (start end_ : Z) : string :=
  let lines := PyStr.split newline text in
  let start_idx := Z.max 0 (start - 1) in
  let end_idx := Z.min (Z.of_nat (length lines)) end_ in
  PyStr.join (String newline "") (list_slice lines start_idx end_idx).

(** One turn of the loop of [_extract_by_json_path]. *)
Definition json_path_step (path : string) (current : value) (part : string)
  : result value :=
  let not_found :=
    Raise (KeyError ("Path '" ++ path ++ "' not found at '" ++ part ++ "'")) in
  match current with
  | VDict d =>
      match Dict.get d part with
      | Some v => Ok v
      | None => not_found
      end
  | VList xs =>
      if PyStr.isdigit part then
        match PyStr.to_int part with
        | Some i =>
            match list_index xs i with
            | Some v => Ok v
            | None => Raise (IndexError "list index out of range")
            end
        | None =>
            Raise (ValueError ("invalid literal for int() with base 10: "
                               ++ PyStr.repr part))
        end
      else not_found
  | _ => not_found
  end.

Fixpoint json_path_walk (path : string) (parts : list string) (current : value)
  : result value :=
  match parts with
  | [] => Ok current
  | part :: parts' =>
      next <- json_path_step path current part ;;
      json_path_walk path parts' next
  end.

Definition _extract_by_json_path (r : value) (path : string) : result value :=
  json_path_walk path (PyStr.split "."%char path) r.

Section Extractor.

(** [re.search(pattern, text, re.DOTALL | re.MULTILINE)]: the text of
    [group(0)] of the first match, [None] without a match, an exception
    for a pattern that does not compile. *)
Variable re_search : string -> string -> result (option string).

Definition _extract_by_pattern (text pattern : string) : result string :=
  m <- re_search pattern text ;;
  match m with
  | None => Raise (ValueError ("Pattern '" ++ pattern ++ "' not found in content"))
  | Some g => Ok g
  end.

(** The [if]/[elif] chain of [execute_copy]: the extracted value and the
    text of [method]. *)
Definition extract (args : Dict.t value) (r : value)
  : result (value * string) :=
  if Dict.contains args "json_path" then
    jp <- getitem (VDict args) "json_path" ;;
    path <- match jp with VStr p => Ok p | _ => Raise AttributeError end ;;
    extracted <- _extract_by_json_path r path ;;
    Ok (extracted, "json_path=" ++ path)
  else if Dict.contains args "pattern" then
    text <- _get_text_content r ;;
    pv <- getitem (VDict args) "pattern" ;;
    pat <- as_str pv ;;
    extracted <- _extract_by_pattern text pat ;;
    Ok (VStr extracted, "pattern=" ++ PyStr.take 50 pat ++ "...")
  else if Dict.contains args "start_line" && Dict.contains args "end_line" then
    text <- _get_text_content r ;;
    sv <- getitem (VDict args) "start_line" ;;
    ev <- getitem (VDict args) "end_line" ;;
    start <- as_int sv ;;
    end_ <- as_int ev ;;
    Ok (VStr (_extract_by_lines text start end_),
        "lines " ++ py_str sv ++ "-" ++ py_str ev)
  else
    text <- _get_text_content r ;;
    Ok (VStr text, "full content").

(** The [source_ref] that [result_store.get] is called with.  One that is
    not a [str] never gets through [get]: [":" in source] raises
    [TypeError] on [None], a [bool] or an [int]; a [list] or a [dict] that
    holds [":"] has no [rsplit], and one that does not is unhashable at
    [tool_name not in self._by_tool]. *)
Definition source_ref_of (v : value) : result string :=
  match v with
  | VStr s => Ok s
  | VList xs =>
      if list_has_str ":" xs then Raise AttributeError else Raise TypeError
  | VDict d =>
      if Dict.contains d ":" then Raise AttributeError else Raise TypeError
  | _ => Raise TypeError
  end.

(** [execute_copy(clipboard, result_store, args)]: what it returns or
    raises, and the clipboard afterwards.  The clipboard of the embedding
    is keyed by [str], as the signature of [set] and the schema of the
    tool declare the slot: a [list] or a [dict] as slot is refused by
    [set] as unhashable, with [TypeError]; an [int], a [bool] or [None]
    as slot, which [set] would take as a key, is outside the model. *)
Definition execute_copy (cb : ClipboardState) (st : ToolResultStore)
           (args : value) : result value * ClipboardState :=
  let run :=
    slot_v <- getitem args "slot" ;;
    source_v <- getitem args "source" ;;
    source_ref <- source_ref_of source_v ;;
    src <- Store.get source_ref st ;;
    em <- match args with
          | VDict d => extract d (result_of src)
          | _ => Raise TypeError
          end ;;
    slot <- as_str slot_v ;;
    let extracted := fst em in
    let size := match extracted with
                | VStr s => PyStr.len s
                | _ => PyStr.len (py_str extracted)
                end in
    Ok (VDict [("success", VBool true);
               ("slot", VStr slot);
               ("source", VStr source_ref);
               ("method", VStr (snd em));
               ("bytes_extracted", VInt size);
               ("preview", VStr (_truncate extracted 200))],
        Clipboard.set slot extracted cb) in
  match run with
  | Ok (ret, cb') => (Ok ret, cb')
  | Raise e => (Raise e, cb)
  end.

End Extractor.

(** ** template.py *)

(** Code that reads and updates the clipboard and may raise. *)
Definition M (A : Type) : Type := ClipboardState -> result A * ClipboardState.

Definition ret {A : Type} (a : A) : M A := fun cb => (Ok a, cb).

Definition bindM {A B : Type} (m : M A) (k : A -> M B) : M B :=
  fun cb =>
    match m cb with
    | (Ok a, cb') => k a cb'
    | (Raise e, cb') => (Raise e, cb')
    end.

Notation "x <~ e ;; k" := (bindM e (fun x => k))
  (at level 61, e at next level, right associativity).

Module Template.

(** The longest prefix of word characters, and the rest. *)
Fixpoint span_word (s : string) : string * string :=
  match s with
  | EmptyString => (EmptyString, EmptyString)
  | String c s' =>
      if PyStr.is_word c
      then (String c (fst (span_word s')), snd (span_word s'))
      else (EmptyString, s)
  end.

(** A match of [SLOT_PATTERN] at the start of [s]: the text of group 1
    and what follows the match.  Braces are not word characters, so the
    greedy [\w+] has one way to match. *)
Definition match_at (s : string) : option (string * string) :=
  match s with
  | String "{" (String "{" s1) =>
      match span_word s1 with
      | (String c w, String "}" (String "}" rest)) => Some (String c w, rest)
      | _ => None
      end
  | _ => None
  end.

(** [SLOT_PATTERN.fullmatch(s)], group 1 of the match. *)
Definition fullmatch (s : string) : option string :=
  match match_at s with
  | Some (name, EmptyString) => Some name
  | _ => None
  end.

(** What [SLOT_PATTERN.sub] sees in a string: characters it copies, and
    matches it hands to the replacement function. *)
Inductive piece : Type :=
| Text (c : ascii)
| Slot (name : string).

(** The scan of [SLOT_PATTERN.sub] from left to right; [skip] counts the
    characters of the last match that are still to be passed over. *)
Fixpoint scan (skip : nat) (s : string) : list piece :=
  match s with
  | EmptyString => []
  | String c s' =>
      match skip with
      | S k => scan k s'
      | O =>
          match match_at s with
          | Some (name, _) => Slot name :: scan (3 + String.length name) s'
          | None => Text c :: scan 0 s'
          end
      end
  end.

(** The closure [replace_slot] of [render_template]. *)
Definition replace_slot (slot_name : string) : M string :=
  fun cb =>
    match Clipboard.get slot_name cb with
    | Ok v => (Ok (py_str v), Clipboard.record_usage slot_name cb)
    | Raise e => (Raise e, cb)
    end.

(** [SLOT_PATTERN.sub(replace_slot, template)] on the scanned string. *)
Fixpoint sub (ps : list piece) : M string :=
  match ps with
  | [] => ret EmptyString
  | Text c :: ps' => r <~ sub ps' ;; ret (String c r)
  | Slot name :: ps' =>
      t <~ replace_slot name ;;
      r <~ sub ps' ;;
      ret (t ++ r)
  end.

Definition render_str (s : string) : M value :=
  match fullmatch (PyStr.strip s) with
  | Some slot_name =>
      fun cb =>
        match Clipboard.get slot_name cb with
        | Ok v => (Ok v, Clipboard.record_usage slot_name cb)
        | Raise e => (Raise e, cb)
        end
  | None => r <~ sub (scan 0 s) ;; ret (VStr r)
  end.

Section Comprehensions.

Variable render : value -> M value.

(** [[render(item) for item in xs]] *)
Fixpoint render_list (xs : list value) : M (list value) :=
  match xs with
  | [] => ret []
  | x :: xs' =>
      x' <~ render x ;;
      r <~ render_list xs' ;;
      ret (x' :: r)
  end.

(** [{k: render(v) for k, v in kvs}] *)
Fixpoint render_items (kvs : list (string * value))
  : M (list (string * value)) :=
  match kvs with
  | [] => ret []
  | kv :: kvs' =>
      v' <~ render (snd kv) ;;
      r <~ render_items kvs' ;;
      ret ((fst kv, v') :: r)
  end.

End Comprehensions.

Fixpoint render_template (template : value) : M value :=
  match template with
  | VStr s => render_str s
  | VDict d => r <~ render_items render_template d ;; ret (VDict r)
  | VList l => r <~ render_list render_template l ;; ret (VList r)
  | _ => ret template
  end.

End Template.

(** ** template.py and agent.py: dispatch *)

Section Dispatch.

Variable re_search : string -> string -> result (option string).

(** What the tools act on (the files under the output directory). *)
Variable World : Type.

(** The collaborator [execute_tool(tool_name, args)] of tools.py. *)
Variable execute_tool : value -> value -> World -> result value * World.

(** [execute_template_invoke(template, clipboard, execute_tool)] *)
Definition execute_template_invoke (template : value) (cb : ClipboardState)
           (w : World) : result value * ClipboardState * World :=
  match getitem template "tool" with
  | Raise e => (Raise e, cb, w)
  | Ok tool_name =>
      match getitem template "parameters" with
      | Raise e => (Raise e, cb, w)
      | Ok raw_params =>
          match Template.render_template raw_params cb with
          | (Raise e, cb') => (Raise e, cb', w)
          | (Ok rendered_params, cb') =>
              match execute_tool tool_name rendered_params w with
              | (Raise e, w') => (Raise e, cb', w')
              | (Ok r, w') =>
                  (Ok (VDict [("tool_executed", tool_name);
                              ("substitutions_applied", VBool true);
                              ("result", r)]),
                   cb', w')
              end
          end
      end
  end.

(** The fields of [ClipboardAgent] that [_execute_tool_call] touches,
    and the world of the tools. *)
Record ClipboardAgent : Type := mkAgent {
  clipboard : ClipboardState;
  result_store : ToolResultStore;
  tool_calls : list value;
  world : World
}.

Definition call_record (tool_name : string) (tool_input : value)
           (used_clipboard : bool) (r : value) : value :=
  VDict [("tool", VStr tool_name);
         ("input", tool_input);
         ("used_clipboard", VBool used_clipboard);
         ("result", r)].

(** [self._execute_tool_call(tool_name, tool_input)]: what it returns
    or raises, and the agent afterwards. *)
Definition _execute_tool_call (tool_name : string) (tool_input : value)
           (a : ClipboardAgent) : result value * ClipboardAgent :=
  if String.eqb tool_name "copy" then
    match execute_copy re_search (clipboard a) (result_store a) tool_input with
    | (Raise e, cb') =>
        (Raise e, mkAgent cb' (result_store a) (tool_calls a) (world a))
    | (Ok r, cb') =>
        (Ok r, mkAgent cb' (result_store a)
                       (tool_calls a ++ [call_record tool_name tool_input true r])
                       (world a))
    end
  else if String.eqb tool_name "template_invoke" then
    match getitem tool_input "template" with
    | Raise e => (Raise e, a)
    | Ok template =>
        match execute_template_invoke template (clipboard a) (world a) with
        | (Raise e, cb', w') =>
            (Raise e, mkAgent cb' (result_store a) (tool_calls a) w')
        | (Ok r, cb', w') =>
            (Ok r, mkAgent cb' (result_store a)
                           (tool_calls a ++ [call_record tool_name tool_input true r])
                           w')
        end
    end
  else
    match execute_tool (VStr tool_name) tool_input (world a) with
    | (Raise e, w') =>
        (Raise e, mkAgent (clipboard a) (result_store a) (tool_calls a) w')
    | (Ok r, w') =>
        (Ok r, mkAgent (clipboard a)
                       (snd (Store.store tool_name r (result_store a)))
                       (tool_calls a ++ [call_record tool_name tool_input false r])
                       w')
    end.

End Dispatch.

(** ** tools.py *)

(** [args.get(k, default)] *)
Definition get_or (d : value) (k : string) (default : value) : result value :=
  match d with
  | VDict kvs => Ok (Dict.get_default kvs k default)
  | _ => Raise AttributeError
  end.

(** [execute_http_request(args)], the mock request. *)
Definition execute_http_request (args : value) : result value :=
  method <- getitem args "method" ;;
  url <- getitem args "url" ;;
  headers <- get_or args "headers" (VDict []) ;;
  body <- get_or args "body" VNone ;;
  Ok (VDict [("success", VBool true);
             ("mock", VBool true);
             ("message",
              VStr ("Would send " ++ py_str method ++ " to " ++ py_str url));
             ("request", VDict [("method", method);
                                ("url", url);
                                ("headers", headers);
                                ("body", body)])]).

Section Tools.

(** The files the tools read and write. *)
Variable Files : Type.

(** [execute_create_file] and [execute_read_file] act on the files and
    are taken as they come. *)
Variable execute_create_file : value -> Files -> result value * Files.
Variable execute_read_file : value -> Files -> result value * Files.

(** [execute_tool(tool_name, args)]: the lookup in [TOOL_EXECUTORS], whose
    keys are the three tool names.  A list or a dict as [tool_name] cannot
    be hashed. *)
Definition execute_tool (tool_name args : value) (w : Files)
  : result value * Files :=
  match tool_name with
  | VStr name =>
      if String.eqb name "create_file" then execute_create_file args w
      else if String.eqb name "read_file" then execute_read_file args w
      else if String.eqb name "http_request" then (execute_http_request args, w)
      else (Ok (VDict [("error", VStr ("Unknown tool: " ++ name))]), w)
  | VList _ | VDict _ => (Raise TypeError, w)
  | _ => (Ok (VDict [("error", VStr ("Unknown tool: " ++ py_str tool_name))]), w)
  end.

End Tools.

(** ** agent.py: [get_stats] *)

(** [sum(1 for c in calls if c["tool"] == name)] *)
Fixpoint count_calls (name : string) (calls : list value) : result Z :=
  match calls with
  | [] => Ok 0%Z
  | c :: calls' =>
      t <- getitem c "tool" ;;
      n <- count_calls name calls' ;;
      Ok ((match t with
           | VStr s => if String.eqb s name then 1 else 0
           | _ => 0
           end) + n)%Z
  end.

(** A [dict] of integers as a value. *)
Definition int_dict (d : Dict.t Z) : value :=
  VDict (map (fun kv => (fst kv, VInt (snd kv))) d).

(** The [dict] that [get_token_savings_estimate] returns. *)
Definition estimate_value (e : Clipboard.estimate) : value :=
  VDict [("bytes_stored", VInt (Clipboard.bytes_stored e));
         ("bytes_substituted", VInt (Clipboard.bytes_substituted e));
         ("estimated_tokens_saved", VInt (Clipboard.estimated_tokens_saved e));
         ("reference_overhead_tokens",
          VInt (Clipboard.reference_overhead_tokens e));
         ("net_tokens_saved", VInt (Clipboard.net_tokens_saved e));
         ("slots_usage", int_dict (Clipboard.slots_usage e));
         ("slots_bytes", int_dict (Clipboard.slots_bytes e))].

(** [self.get_stats()]; [token_usage] is the field of that name, which
    only the loop of [run] updates. *)
Definition get_stats {World : Type} (token_usage : value)
           (a : ClipboardAgent World) : result value :=
  clipboard_calls <- count_calls "copy" (tool_calls World a) ;;
  template_calls <- count_calls "template_invoke" (tool_calls World a) ;;
  Ok (VDict [("total_tool_calls",
              VInt (Z.of_nat (length (tool_calls World a))));
             ("copy_calls", VInt clipboard_calls);
             ("template_invoke_calls", VInt template_calls);
             ("clipboard_slots",
              VList (map VStr (Clipboard.list_slots (clipboard World a))));
             ("stored_results",
              VList (map VStr (Store.list_sources (result_store World a))));
             ("token_usage", token_usage);
             ("token_savings",
              estimate_value
                (Clipboard.get_token_savings_estimate (clipboard World a)))]).

(** * Vocabulary of the properties *)

(** The calls that change a clipboard. *)
Inductive cb_op : Type :=
| OpSet (slot : string) (v : value)
| OpClear (slot : option string)
| OpRecordUsage (slot : string).

Definition apply_op (cb : ClipboardState) (op : cb_op) : ClipboardState :=
  match op with
  | OpSet slot v => Clipboard.set slot v cb
  | OpClear slot => Clipboard.clear slot cb
  | OpRecordUsage slot => Clipboard.record_usage slot cb
  end.

(** The clipboard of a session: a new one, then any calls. *)
Definition clipboard_after (ops : list cb_op) : ClipboardState :=
  fold_left apply_op ops Clipboard.init.

Definition is_clear (op : cb_op) : bool :=
  match op with OpClear _ => true | _ => false end.

(** The bookkeeping of a slot name. *)
Definition use_count (cb : ClipboardState) (slot : string) : Z :=
  Dict.get_default (_usage_count cb) slot 0%Z.

Definition byte_size (cb : ClipboardState) (slot : string) : Z :=
  Dict.get_default (_bytes_stored cb) slot 0%Z.

(** The sum of [f] over a list of names. *)
Definition sum_over (names : list string) (f : string -> Z) : Z :=
  fold_right (fun s acc => (f s + acc)%Z) 0%Z names.

(** A placeholder identifier: one or more word characters. *)
Definition identifier (name : string) : bool :=
  PyStr.nonempty name && PyStr.all PyStr.is_word name.

(** The text of the placeholder of a slot. *)
Definition placeholder (name : string) : string := "{{" ++ name ++ "}}".

(** The store of a session: a new one, then [store] calls. *)
Definition store_after (calls : list (string * value)) : ToolResultStore :=
  fold_left (fun st c => snd (Store.store (fst c) (snd c) st)) calls Store.init.

(** The entries stored under one tool name, in the order of the calls. *)
Definition entries_of (tool_name : string) (calls : list (string * value))
  : list entry :=
  map (fun c => mkEntry (fst c) (snd c))
      (filter (fun c => String.eqb (fst c) tool_name) calls).

(** The reference [tool_name:i]. *)
Definition indexed_ref (tool_name : string) (i : nat) : string :=
  tool_name ++ ":" ++ PyStr.of_int (Z.of_nat i).

(** A tool that cannot open its file. *)
Definition failing_tool (name args : value) (w : unit) : result value * unit :=
  (Raise (Other "OSError" "cannot open file"), w).

(** The slot names that [sub] hands to [replace_slot], in order. *)
Definition slots_of_pieces (ps : list Template.piece) : list string :=
  flat_map (fun p => match p with
                     | Template.Slot name => [name]
                     | Template.Text _ => []
                     end) ps.

(** The placeholders of a template string in the order [render_template]
    resolves them. *)
Definition slots_of_str (s : string) : list string :=
  match Template.fullmatch (PyStr.strip s) with
  | Some name => [name]
  | None => slots_of_pieces (Template.scan 0 s)
  end.

(** The placeholders of a template in the order [render_template]
    resolves them. *)
Fixpoint slots_of (template : value) : list string :=
  match template with
  | VStr s => slots_of_str s
  | VDict d => flat_map (fun kv => slots_of (snd kv)) d
  | VList l => flat_map slots_of l
  | _ => []
  end.

(** One [record_usage] per name, in order. *)
Definition record_all (names : list string) (cb : ClipboardState)
  : ClipboardState :=
  fold_left (fun cb name => Clipboard.record_usage name cb) names cb.

(** The first name that is not a slot, and the names before it. *)
Fixpoint first_unknown (slots : Dict.t value) (names : list string)
  : option string :=
  match names with
  | [] => None
  | name :: names' =>
      if Dict.contains slots name then first_unknown slots names'
      else Some name
  end.

Fixpoint known_prefix (slots : Dict.t value) (names : list string)
  : list string :=
  match names with
  | [] => []
  | name :: names' =>
      if Dict.contains slots name then name :: known_prefix slots names'
      else []
  end.

(** The exception of [ClipboardState.get] for a name that is not a slot. *)
Definition missing_slot (slots : Dict.t value) (name : string) : exn :=
  KeyError ("Clipboard slot '" ++ name ++ "' not found. Available: "
            ++ py_str (VList (map VStr (Dict.keys slots)))).

(** [m] resolves the slots [names] in order and stops at the first one
    that is missing: it records one usage for each name resolved, changes
    nothing else, and returns [pure] of the slots when none is missing. *)
Definition runs_as {A : Type} (m : M A) (names : list string)
           (pure : Dict.t value -> A) : Prop :=
  forall cb,
    m cb
    = (match first_unknown (_slots cb) names with
       | Some name => Raise (missing_slot (_slots cb) name)
       | None => Ok (pure (_slots cb))
       end,
       record_all (known_prefix (_slots cb) names) cb).

(** The value of a slot. *)
Definition slot_value (slots : Dict.t value) (name : string) : value :=
  match Dict.get slots name with Some v => v | None => VNone end.

(** The text of scanned pieces with every slot replaced by [str] of its
    value. *)
Definition sub_text (ps : list Template.piece) (slots : Dict.t value) : string :=
  fold_right (fun p acc => match p with
                           | Template.Text c => String c acc
                           | Template.Slot name =>
                               py_str (slot_value slots name) ++ acc
                           end) EmptyString ps.

(** A template string written as literal text and placeholders in turn:
    each pair is a literal and the name of the placeholder after it, [tail]
    is the literal at the end. *)
Definition template_of (segs : list (string * string)) (tail : string) : string :=
  fold_right (fun seg acc => fst seg ++ placeholder (snd seg) ++ acc) tail segs.

(** The same text with [str] of the slot value in place of each
    placeholder. *)
Definition expansion (slots : Dict.t value) (segs : list (string * string))
           (tail : string) : string :=
  fold_right (fun seg acc => fst seg ++ py_str (slot_value slots (snd seg)) ++ acc)
             tail segs.

(** The pieces of a text that [sub] copies character by character. *)
Fixpoint text_pieces (l : string) : list Template.piece :=
  match l with
  | EmptyString => []
  | String c l' => Template.Text c :: text_pieces l'
  end.

(** The text after a literal of a template: nothing, or a placeholder. *)
Definition literal_end (rest : string) : Prop :=
  rest = EmptyString
  \/ exists name r, identifier name = true /\ rest = placeholder name ++ r.

(** A character other than the opening brace. *)
Definition not_open (c : ascii) : bool := negb (Ascii.eqb c "{"%char).

(** A text in which no placeholder occurs. *)
Definition placeholder_free (l : string) : Prop :=
  forall pre name post,
    identifier name = true -> l <> pre ++ placeholder name ++ post.

(** The pattern matches at no position of the text. *)
Fixpoint free_b (l : string) : bool :=
  match Template.match_at l with
  | Some _ => false
  | None =>
      match l with
      | EmptyString => true
      | String _ l' => free_b l'
      end
  end.

(** How many times a name occurs in a list. *)
Definition occurrences (names : list string) (name : string) : Z :=
  Z.of_nat (count_occ string_dec names name).

(** What every clipboard of a session satisfies: the bookkeeping knows
    every slot, its two tables have the same names, each once, and hold no
    negative number. *)
Record cb_inv (cb : ClipboardState) : Prop := mk_cb_inv {
  inv_tracked :
    forall s, Dict.get (_slots cb) s <> None -> Dict.get (_usage_count cb) s <> None;
  inv_nodup : NoDup (Dict.keys (_usage_count cb));
  inv_keys : Dict.keys (_bytes_stored cb) = Dict.keys (_usage_count cb);
  inv_usage_nonneg : Forall (fun kv => 0 <= snd kv)%Z (_usage_count cb);
  inv_bytes_nonneg : Forall (fun kv => 0 <= snd kv)%Z (_bytes_stored cb)
}.

(** The agent of a session: the calls of [_execute_tool_call] one after
    the other, whatever each returns or raises. *)
Definition agent_after {World : Type}
           (re_search : string -> string -> result (option string))
           (execute : value -> value -> World -> result value * World)
           (calls : list (string * value)) (a : ClipboardAgent World)
  : ClipboardAgent World :=
  fold_left (fun a c => snd (_execute_tool_call re_search World execute
                                                (fst c) (snd c) a))
            calls a.

(** A new agent. *)
Definition new_agent {World : Type} (w : World) : ClipboardAgent World :=
  mkAgent World Clipboard.init Store.init [] w.

(** The number of results in a store. *)
Definition total_results (st : ToolResultStore) : nat :=
  fold_right (fun tr acc => length (snd tr) + acc) 0 (_by_tool st).

(** The text that [_truncate] shortens. *)
Definition text_of (v : value) : string :=
  match v with VStr s => s | _ => py_repr v end.

(** The lines of a text. *)
Definition lines_of (text : string) : list string := PyStr.split newline text.

(** A tool name that the reference syntax does not take for something
    else. *)
Definition plain_name (name : string) : bool :=
  negb (String.eqb name "last") && negb (PyStr.contains_char ":"%char name).

(** The names that a list of clipboard calls sets. *)
Definition sets_slot (slot : string) (op : cb_op) : bool :=
  match op with
  | OpSet s _ => String.eqb s slot
  | _ => false
  end.

(** * Properties *)

(** ** Strings *)

Lemma append_nil_r (s : string) : s ++ "" = s.
Proof. induction s as [|c s IH]; simpl; [reflexivity | now rewrite IH]. Qed.

Lemma append_assoc (a b c : string) : (a ++ b) ++ c = a ++ (b ++ c).
Proof. induction a as [|x a IH]; simpl; [reflexivity | now rewrite IH]. Qed.

Lemma length_append (a b : string) :
  String.length (a ++ b) = String.length a + String.length b.
Proof. induction a as [|x a IH]; simpl; [reflexivity | now rewrite IH]. Qed.

Lemma all_append p (a b : string) :
  PyStr.all p (a ++ b) = PyStr.all p a && PyStr.all p b.
Proof.
  induction a as [|x a IH]; simpl; [reflexivity|].
  now rewrite IH, andb_assoc.
Qed.

(** ** Dictionaries *)

Section DictFacts.
Context {V : Type}.
Implicit Types (d : Dict.t V) (k : string) (v : V).

Lemma get_setitem_same d k v : Dict.get (Dict.setitem d k v) k = Some v.
Proof.
  induction d as [|[k' v'] d IH]; simpl.
  - now rewrite String.eqb_refl.
  - destruct (String.eqb k' k) eqn:E; simpl.
    + now rewrite String.eqb_refl.
    + now rewrite E.
Qed.

Lemma get_setitem_other d k k' v :
  k <> k' -> Dict.get (Dict.setitem d k v) k' = Dict.get d k'.
Proof.
  intros N. induction d as [|[k0 v0] d IH]; simpl.
  - destruct (String.eqb_spec k k'); [contradiction | reflexivity].
  - destruct (String.eqb_spec k0 k) as [->|N0]; simpl.
    + destruct (String.eqb_spec k k'); [contradiction | reflexivity].
    + destruct (String.eqb_spec k0 k'); [reflexivity | exact IH].
Qed.

Lemma in_keys_setitem d k v x :
  In x (Dict.keys (Dict.setitem d k v)) <-> x = k \/ In x (Dict.keys d).
Proof.
  unfold Dict.keys. induction d as [|[k0 v0] d IH]; simpl.
  - intuition.
  - destruct (String.eqb_spec k0 k) as [->|N0]; simpl.
    + intuition.
    + rewrite IH. intuition.
Qed.

Lemma nodup_keys_setitem d k v :
  NoDup (Dict.keys d) -> NoDup (Dict.keys (Dict.setitem d k v)).
Proof.
  induction d as [|[k0 v0] d IH]; simpl; intros H.
  - constructor; [intros [] | constructor].
  - inversion H as [|? ? Hn Hd]; subst.
    destruct (String.eqb_spec k0 k) as [->|N0]; simpl.
    + constructor; assumption.
    + constructor; [|now apply IH].
      intros Hin. apply in_keys_setitem in Hin as [->|Hin]; contradiction.
Qed.

Lemma keys_setitem_present d k v :
  Dict.get d k <> None -> Dict.keys (Dict.setitem d k v) = Dict.keys d.
Proof.
  unfold Dict.keys. induction d as [|[k0 v0] d IH]; simpl; intros H.
  - contradiction.
  - destruct (String.eqb_spec k0 k) as [->|N0]; simpl.
    + reflexivity.
    + f_equal. now apply IH.
Qed.

Lemma keys_setitem_absent d k v :
  Dict.get d k = None -> Dict.keys (Dict.setitem d k v) = (Dict.keys d ++ [k])%list.
Proof.
  unfold Dict.keys. induction d as [|[k0 v0] d IH]; simpl; intros H.
  - reflexivity.
  - destruct (String.eqb_spec k0 k) as [->|N0]; simpl.
    + discriminate.
    + f_equal. now apply IH.
Qed.

Lemma get_in_keys d k : Dict.get d k <> None <-> In k (Dict.keys d).
Proof.
  unfold Dict.keys. induction d as [|[k0 v0] d IH]; simpl.
  - intuition.
  - destruct (String.eqb_spec k0 k) as [->|N0].
    + split; [now left | discriminate].
    + rewrite IH. intuition.
Qed.

Lemma forall_setitem (P : string * V -> Prop) d k v :
  Forall P d -> P (k, v) -> Forall P (Dict.setitem d k v).
Proof.
  intros H Hk. induction H as [|[k0 v0] d H0 H IH]; simpl.
  - now constructor.
  - destruct (String.eqb k0 k); constructor; assumption.
Qed.

Lemma get_pop_some d k x v :
  Dict.get (Dict.pop d k) x = Some v -> Dict.get d x <> None.
Proof.
  induction d as [|[k0 v0] d IH]; simpl.
  - discriminate.
  - destruct (String.eqb_spec k0 k) as [->|N0]; simpl.
    + intros H. destruct (String.eqb k x); [discriminate|]. now rewrite H.
    + destruct (String.eqb k0 x); [discriminate | exact IH].
Qed.

Lemma get_in d k v : Dict.get d k = Some v -> In (k, v) d.
Proof.
  induction d as [|[k0 v0] d IH]; simpl.
  - discriminate.
  - destruct (String.eqb_spec k0 k) as [->|N0].
    + intros [= ->]. now left.
    + intros H. right. now apply IH.
Qed.

Lemma in_get_nodup d k v :
  NoDup (Dict.keys d) -> In (k, v) d -> Dict.get d k = Some v.
Proof.
  unfold Dict.keys. induction d as [|[k0 v0] d IH]; simpl; intros Hn Hin.
  - contradiction.
  - inversion Hn as [|? ? Hnot Hd]; subst.
    destruct Hin as [[= -> ->]|Hin].
    + now rewrite String.eqb_refl.
    + destruct (String.eqb_spec k0 k) as [->|N0].
      * exfalso. apply Hnot. apply in_map_iff. now exists (k, v).
      * now apply IH.
Qed.

End DictFacts.

(** ** The clipboard of a session *)

Lemma cb_inv_init : cb_inv Clipboard.init.
Proof.
  constructor; simpl; try constructor. intros s H; now elim H.
Qed.

Lemma keys_setitem_agree {A B : Type} (d1 : Dict.t A) (d2 : Dict.t B) k a b :
  Dict.keys d1 = Dict.keys d2 ->
  Dict.keys (Dict.setitem d1 k a) = Dict.keys (Dict.setitem d2 k b).
Proof.
  intros E.
  destruct (Dict.get d2 k) eqn:G2.
  - assert (H1 : Dict.get d1 k <> None).
    { apply get_in_keys. rewrite E. apply get_in_keys. now rewrite G2. }
    rewrite !keys_setitem_present; [assumption | now rewrite G2 | assumption].
  - assert (H1 : Dict.get d1 k = None).
    { destruct (Dict.get d1 k) eqn:G1; [|reflexivity].
      exfalso. assert (In k (Dict.keys d2)) as Hin.
      { rewrite <- E. apply get_in_keys. now rewrite G1. }
      apply get_in_keys in Hin. contradiction. }
    rewrite !keys_setitem_absent by assumption. now rewrite E.
Qed.

Lemma cb_inv_set slot v cb : cb_inv cb -> cb_inv (Clipboard.set slot v cb).
Proof.
  intros [Ht Hn Hk Hu Hb]. constructor; simpl.
  - intros s H. destruct (String.eqb_spec slot s) as [->|N].
    + rewrite get_setitem_same. discriminate.
    + rewrite get_setitem_other in H by assumption.
      rewrite get_setitem_other by assumption. now apply Ht.
  - now apply nodup_keys_setitem.
  - now apply keys_setitem_agree.
  - apply forall_setitem; [assumption | simpl; lia].
  - apply forall_setitem; [assumption|]. simpl.
    destruct v; unfold PyStr.len; lia.
Qed.

Lemma cb_inv_clear slot cb : cb_inv cb -> cb_inv (Clipboard.clear slot cb).
Proof.
  intros [Ht Hn Hk Hu Hb].
  destruct slot as [[|c s]|]; constructor; simpl; try assumption;
    try (intros x H; now elim H).
  intros x H. apply Ht.
  destruct (Dict.get (Dict.pop (_slots cb) (String c s)) x) eqn:G;
    [|contradiction].
  now apply get_pop_some in G.
Qed.

Lemma record_usage_known slot n cb :
  Dict.get (_usage_count cb) slot = Some n ->
  Clipboard.record_usage slot cb
  = mkClipboard (_slots cb) (_bytes_stored cb)
                (Dict.setitem (_usage_count cb) slot (n + 1)%Z).
Proof. intros H. unfold Clipboard.record_usage. now rewrite H. Qed.

Lemma cb_inv_record_usage slot cb :
  cb_inv cb -> cb_inv (Clipboard.record_usage slot cb).
Proof.
  intros I. destruct (Dict.get (_usage_count cb) slot) as [n|] eqn:G.
  - rewrite (record_usage_known _ _ _ G).
    destruct I as [Ht Hn Hk Hu Hb]. constructor; simpl; try assumption.
    + intros s H. destruct (String.eqb_spec slot s) as [->|N].
      * rewrite get_setitem_same. discriminate.
      * rewrite get_setitem_other by assumption. now apply Ht.
    + now apply nodup_keys_setitem.
    + rewrite keys_setitem_present; [assumption | now rewrite G].
    + apply forall_setitem; [assumption|]. simpl.
      apply get_in in G. rewrite Forall_forall in Hu.
      specialize (Hu _ G). simpl in Hu. lia.
  - unfold Clipboard.record_usage. now rewrite G.
Qed.

Lemma cb_inv_apply_op cb op : cb_inv cb -> cb_inv (apply_op cb op).
Proof.
  destruct op; simpl;
    [apply cb_inv_set | apply cb_inv_clear | apply cb_inv_record_usage].
Qed.

Lemma cb_inv_fold ops cb : cb_inv cb -> cb_inv (fold_left apply_op ops cb).
Proof.
  revert cb. induction ops as [|op ops IH]; simpl; intros cb I.
  - exact I.
  - apply IH. now apply cb_inv_apply_op.
Qed.

Lemma cb_inv_after ops : cb_inv (clipboard_after ops).
Proof. apply cb_inv_fold, cb_inv_init. Qed.

(** Recording a usage of a slot the clipboard holds: one more on that
    slot, nothing else moves. *)
Lemma record_usage_effect slot cb :
  cb_inv cb -> Dict.get (_slots cb) slot <> None ->
  _slots (Clipboard.record_usage slot cb) = _slots cb
  /\ _bytes_stored (Clipboard.record_usage slot cb) = _bytes_stored cb
  /\ use_count (Clipboard.record_usage slot cb) slot = (use_count cb slot + 1)%Z
  /\ forall other, other <> slot ->
       use_count (Clipboard.record_usage slot cb) other = use_count cb other.
Proof.
  intros I Hs. apply (inv_tracked _ I) in Hs.
  destruct (Dict.get (_usage_count cb) slot) as [n|] eqn:G; [|contradiction].
  rewrite (record_usage_known _ _ _ G). simpl.
  repeat split; unfold use_count, Dict.get_default; simpl.
  - now rewrite get_setitem_same, G.
  - intros other N. rewrite get_setitem_other; [reflexivity | congruence].
Qed.

(** ** The placeholder pattern *)

Lemma is_word_close_brace : PyStr.is_word "}"%char = false.
Proof. reflexivity. Qed.

Lemma is_word_open_brace : PyStr.is_word "{"%char = false.
Proof. reflexivity. Qed.

Lemma span_word_app (w r : string) :
  PyStr.all PyStr.is_word w = true ->
  match r with EmptyString => True | String c _ => PyStr.is_word c = false end ->
  Template.span_word (w ++ r) = (w, r).
Proof.
  intros Hw Hr. induction w as [|c w IH]; simpl in *.
  - destruct r as [|c r]; simpl; [reflexivity | now rewrite Hr].
  - apply andb_true_iff in Hw as [Hc Hw]. rewrite Hc, (IH Hw). reflexivity.
Qed.

Lemma span_word_spec (s : string) :
  s = fst (Template.span_word s) ++ snd (Template.span_word s)
  /\ PyStr.all PyStr.is_word (fst (Template.span_word s)) = true
  /\ match snd (Template.span_word s) with
     | EmptyString => True
     | String c _ => PyStr.is_word c = false
     end.
Proof.
  induction s as [|c s (IH1 & IH2 & IH3)]; simpl.
  - auto.
  - destruct (PyStr.is_word c) eqn:E; simpl.
    + rewrite E, IH2. repeat split; [now rewrite <- IH1 | exact IH3].
    + now rewrite E.
Qed.

Lemma identifier_inv name :
  identifier name = true ->
  PyStr.all PyStr.is_word name = true
  /\ exists c w, name = String c w.
Proof.
  unfold identifier. intros H. apply andb_true_iff in H as [Hn Hw].
  split; [assumption|]. destruct name; [discriminate | eauto].
Qed.

Lemma placeholder_app name rest :
  placeholder name ++ rest
  = String "{" (String "{" (name ++ String "}" (String "}" rest))).
Proof.
  unfold placeholder. simpl. now rewrite append_assoc.
Qed.

(** The pattern matches at the start of a string exactly when the string
    starts with the placeholder of an identifier. *)
Lemma match_at_placeholder name rest :
  identifier name = true ->
  Template.match_at (placeholder name ++ rest) = Some (name, rest).
Proof.
  intros H. apply identifier_inv in H as (Hw & c & w & ->).
  rewrite placeholder_app. unfold Template.match_at.
  rewrite (span_word_app (String c w) (String "}" (String "}" rest)) Hw);
    reflexivity.
Qed.

(** [x] is the character [c], or the goal has a hypothesis that computes
    to an absurdity for every other character. *)
Ltac expect_char x c :=
  let N := fresh "N" in
  destruct (Ascii.eqb_spec x c) as [->|N];
  [| destruct x as [[] [] [] [] [] [] [] []]; try discriminate; now elim N].

Lemma match_at_inv s name rest :
  Template.match_at s = Some (name, rest) ->
  identifier name = true /\ s = placeholder name ++ rest.
Proof.
  unfold Template.match_at.
  destruct s as [|a s]; [discriminate|]. expect_char a "{"%char.
  destruct s as [|b s]; [discriminate|]. expect_char b "{"%char.
  destruct (span_word_spec s) as (E & Hw & _).
  destruct (Template.span_word s) as [w r]; simpl in *.
  destruct w as [|c w]; [discriminate|].
  destruct r as [|x r]; [discriminate|]. expect_char x "}"%char.
  destruct r as [|y r]; [discriminate|]. expect_char y "}"%char.
  intros [= <- <-]. split.
  - unfold identifier. simpl. simpl in Hw. exact Hw.
  - rewrite append_assoc. now rewrite E.
Qed.

Lemma fullmatch_placeholder name :
  identifier name = true -> Template.fullmatch (placeholder name) = Some name.
Proof.
  intros H. unfold Template.fullmatch.
  rewrite <- (append_nil_r (placeholder name)).
  now rewrite match_at_placeholder.
Qed.

(** ** C1 *)

(** C1. A template string that, once stripped, is exactly one placeholder
    of an existing slot renders to the value stored in the slot, as it is
    stored (a dict stays that dict, a number that number), and one usage is
    recorded on that slot and on no other; the slots and their sizes do not
    change. *)
Theorem C1_sole_placeholder_keeps_type :
  forall (ops : list cb_op) (s name : string) (v : value),
    PyStr.strip s = placeholder name ->
    identifier name = true ->
    Dict.get (_slots (clipboard_after ops)) name = Some v ->
    exists cb',
      Template.render_template (VStr s) (clipboard_after ops) = (Ok v, cb')
      /\ _slots cb' = _slots (clipboard_after ops)
      /\ _bytes_stored cb' = _bytes_stored (clipboard_after ops)
      /\ use_count cb' name = (use_count (clipboard_after ops) name + 1)%Z
      /\ forall other, other <> name ->
           use_count cb' other = use_count (clipboard_after ops) other.
Proof.
  intros ops s name v Hs Hid Hget.
  exists (Clipboard.record_usage name (clipboard_after ops)).
  split.
  - simpl. unfold Template.render_str.
    rewrite Hs, (fullmatch_placeholder _ Hid).
    unfold Clipboard.get. now rewrite Hget.
  - apply record_usage_effect; [apply cb_inv_after | now rewrite Hget].
Qed.

Lemma C1_witness :
  exists cb',
    Template.render_template (VStr "  {{cfg}} ")
      (clipboard_after [OpSet "cfg" (VDict [("k", VInt 1)])])
    = (Ok (VDict [("k", VInt 1)]), cb')
    /\ use_count cb' "cfg" = 1%Z.
Proof.
  destruct (C1_sole_placeholder_keeps_type
              [OpSet "cfg" (VDict [("k", VInt 1)])] "  {{cfg}} " "cfg"
              (VDict [("k", VInt 1)]) eq_refl eq_refl eq_refl)
    as (cb' & H1 & _ & _ & H2 & _).
  exists cb'. split; [exact H1 | exact H2].
Defined.

(** ** The savings estimate *)

Lemma fold_left_add (xs : list Z) (a : Z) :
  fold_left Z.add xs a = (a + fold_right Z.add 0 xs)%Z.
Proof.
  revert a. induction xs as [|x xs IH]; simpl; intros a; [lia|].
  rewrite IH. lia.
Qed.

Lemma py_sum_fold_right (xs : list Z) : py_sum xs = fold_right Z.add 0%Z xs.
Proof. unfold py_sum. rewrite fold_left_add. lia. Qed.

(** A sum over the items of a dictionary is a sum over its keys. *)
Lemma py_sum_items_keys {V : Type} (d : Dict.t V) (f : string * V -> Z)
      (g : string -> Z) :
  (forall kv, In kv d -> f kv = g (fst kv)) ->
  py_sum (map f d) = sum_over (Dict.keys d) g.
Proof.
  rewrite py_sum_fold_right. unfold sum_over, Dict.keys.
  induction d as [|kv d IH]; simpl; intros H; [reflexivity|].
  rewrite (H kv) by now left. rewrite IH; [reflexivity|].
  intros kv' Hin. apply H. now right.
Qed.

Lemma sum_over_nonneg names f :
  (forall s, 0 <= f s)%Z -> (0 <= sum_over names f)%Z.
Proof.
  intros H. unfold sum_over. induction names as [|s names IH]; simpl; [lia|].
  specialize (H s). lia.
Qed.

Lemma sum_over_zero names f :
  (forall s, f s = 0%Z) -> sum_over names f = 0%Z.
Proof.
  intros H. unfold sum_over. induction names as [|s names IH]; simpl; [lia|].
  rewrite (H s), IH. lia.
Qed.

Lemma get_default_nonneg (d : Dict.t Z) k :
  Forall (fun kv => 0 <= snd kv)%Z d -> (0 <= Dict.get_default d k 0)%Z.
Proof.
  intros H. unfold Dict.get_default.
  destruct (Dict.get d k) as [v|] eqn:G; [|lia].
  apply get_in in G. rewrite Forall_forall in H. exact (H _ G).
Qed.

Lemma use_count_nonneg cb s : cb_inv cb -> (0 <= use_count cb s)%Z.
Proof. intros I. apply get_default_nonneg, (inv_usage_nonneg _ I). Qed.

Lemma byte_size_nonneg cb s : cb_inv cb -> (0 <= byte_size cb s)%Z.
Proof. intros I. apply get_default_nonneg, (inv_bytes_nonneg _ I). Qed.

Lemma use_count_item cb kv :
  cb_inv cb -> In kv (_usage_count cb) -> snd kv = use_count cb (fst kv).
Proof.
  intros I Hin. destruct kv as [k v]. simpl.
  unfold use_count, Dict.get_default.
  now rewrite (in_get_nodup _ _ _ (inv_nodup _ I) Hin).
Qed.

Lemma byte_size_item cb kv :
  cb_inv cb -> In kv (_bytes_stored cb) -> snd kv = byte_size cb (fst kv).
Proof.
  intros I Hin. destruct kv as [k v]. simpl.
  unfold byte_size, Dict.get_default.
  rewrite (in_get_nodup (_bytes_stored cb) k v); [reflexivity | | assumption].
  rewrite (inv_keys _ I). apply (inv_nodup _ I).
Qed.

Lemma bytes_substituted_sum cb :
  cb_inv cb ->
  Clipboard.bytes_substituted (Clipboard.get_token_savings_estimate cb)
  = sum_over (Dict.keys (_usage_count cb))
             (fun s => byte_size cb s * use_count cb s)%Z.
Proof.
  intros I. simpl. apply py_sum_items_keys.
  intros kv Hin. now rewrite (use_count_item cb kv I Hin).
Qed.

Lemma reference_overhead_sum cb :
  cb_inv cb ->
  py_sum (map (fun sc => ((4 + PyStr.len (fst sc)) * snd sc)%Z)
              (Dict.items (_usage_count cb)))
  = sum_over (Dict.keys (_usage_count cb))
             (fun s => (4 + PyStr.len s) * use_count cb s)%Z.
Proof.
  intros I. apply py_sum_items_keys.
  intros kv Hin. now rewrite (use_count_item cb kv I Hin).
Qed.

(** Without a call of [clear], the bookkeeping holds the slots of the
    clipboard and no other name. *)
Lemma keys_agree_fold ops cb :
  forallb (fun op => negb (is_clear op)) ops = true ->
  Dict.keys (_usage_count cb) = Dict.keys (_slots cb) ->
  Dict.keys (_usage_count (fold_left apply_op ops cb))
  = Dict.keys (_slots (fold_left apply_op ops cb)).
Proof.
  revert cb. induction ops as [|op ops IH]; simpl; intros cb Hc Hk.
  - exact Hk.
  - apply andb_true_iff in Hc as [Hop Hc]. apply IH; [assumption|].
    destruct op as [slot v|slot|slot]; simpl in *.
    + now apply keys_setitem_agree.
    + discriminate.
    + unfold Clipboard.record_usage.
      destruct (Dict.get (_usage_count cb) slot) eqn:G; simpl; [|assumption].
      rewrite keys_setitem_present; [assumption | now rewrite G].
Qed.

Lemma tracked_without_clear ops :
  forallb (fun op => negb (is_clear op)) ops = true ->
  Dict.keys (_usage_count (clipboard_after ops))
  = Clipboard.list_slots (clipboard_after ops).
Proof. intros H. now apply keys_agree_fold. Qed.

(** ** C4 *)

(** X25.  What the estimate sums over.  In a session the sums of the
    estimate range over the names of the usage table, which are all the
    names set so far, cleared or not: [bytes_substituted] is the sum over
    these names of byte size times use count, [estimated_tokens_saved] is
    that sum divided by 4 with truncation, [reference_overhead_tokens] is
    the sum of (4 + length of the name) times use count divided by 4 with
    truncation, [net_tokens_saved] is their difference; when no name has
    a use count other than 0, [bytes_substituted] and [net_tokens_saved]
    are 0.  These names are the slots of the clipboard as long as [clear]
    has not been called. *)
Theorem estimate_formulas :
  forall (ops : list cb_op),
    let cb := clipboard_after ops in
    let e := Clipboard.get_token_savings_estimate cb in
    let slots := Dict.keys (_usage_count cb) in
    Clipboard.bytes_substituted e
    = sum_over slots (fun s => byte_size cb s * use_count cb s)%Z
    /\ Clipboard.estimated_tokens_saved e
       = Z.quot (Clipboard.bytes_substituted e) 4
    /\ Clipboard.reference_overhead_tokens e
       = Z.quot (sum_over slots (fun s => (4 + PyStr.len s) * use_count cb s)%Z) 4
    /\ Clipboard.net_tokens_saved e
       = (Clipboard.estimated_tokens_saved e
          - Clipboard.reference_overhead_tokens e)%Z
    /\ ((forall s, use_count cb s = 0%Z) ->
        Clipboard.bytes_substituted e = 0%Z
        /\ Clipboard.net_tokens_saved e = 0%Z)
    /\ (forallb (fun op => negb (is_clear op)) ops = true ->
        slots = Clipboard.list_slots cb).
Proof.
  intros ops cb e slots.
  pose proof (cb_inv_after ops) as I. fold cb in I.
  pose proof (bytes_substituted_sum cb I) as Hb.
  pose proof (reference_overhead_sum cb I) as Hr.
  assert (Hb0 : (0 <= Clipboard.bytes_substituted e)%Z).
  { unfold e. rewrite Hb. apply sum_over_nonneg. intros s.
    pose proof (byte_size_nonneg cb s I). pose proof (use_count_nonneg cb s I).
    nia. }
  assert (Hr0 : (0 <= sum_over slots
                        (fun s => (4 + PyStr.len s) * use_count cb s))%Z).
  { apply sum_over_nonneg. intros s.
    pose proof (use_count_nonneg cb s I). unfold PyStr.len. nia. }
  split; [exact Hb|].
  split; [rewrite Z.quot_div_nonneg by (assumption || lia); reflexivity|].
  split.
  { rewrite Z.quot_div_nonneg by (assumption || lia).
    unfold slots. rewrite <- Hr. reflexivity. }
  split; [reflexivity|].
  split.
  - intros Hz.
    assert (E1 : Clipboard.bytes_substituted e = 0%Z).
    { unfold e. rewrite Hb. apply sum_over_zero. intros s. rewrite Hz. lia. }
    split; [exact E1|].
    assert (E2 : py_sum (map (fun sc => ((4 + PyStr.len (fst sc)) * snd sc)%Z)
                             (Dict.items (_usage_count cb))) = 0%Z).
    { rewrite Hr. apply sum_over_zero. intros s. rewrite Hz. lia. }
    unfold e in *. simpl in *. rewrite E1, E2. reflexivity.
  - apply tracked_without_clear.
Qed.

Lemma estimate_formulas_witness :
  let cb := clipboard_after [OpSet "a" (VStr "hello"); OpSet "b" (VInt 42)] in
  Clipboard.bytes_substituted (Clipboard.get_token_savings_estimate cb) = 0%Z
  /\ Clipboard.net_tokens_saved (Clipboard.get_token_savings_estimate cb) = 0%Z
  /\ Dict.keys (_usage_count cb) = Clipboard.list_slots cb.
Proof.
  destruct (estimate_formulas
              [OpSet "a" (VStr "hello"); OpSet "b" (VInt 42)])
    as (_ & _ & _ & _ & Hz & Hk).
  destruct Hz as [H1 H2].
  { intros s. unfold use_count, Dict.get_default.
    change (_usage_count
              (clipboard_after [OpSet "a" (VStr "hello"); OpSet "b" (VInt 42)]))
      with [("a", 0%Z); ("b", 0%Z)].
    cbn [Dict.get].
    destruct (String.eqb "a" s); [reflexivity|].
    destruct (String.eqb "b" s); reflexivity. }
  split; [exact H1|]. split; [exact H2|]. apply Hk. reflexivity.
Defined.

(** C4.  The sums of the estimate do not range over the slots of the
    clipboard: a name that [clear] took away still counts.  After
    [set("a", "hello world!")], [set("b", "x")], one recorded usage of [a]
    and [clear("a")], the only slot is [b] and its use count is 0, so the
    sum over the slots of byte size times use count is 0; the estimate
    reports [bytes_substituted] 12, [estimated_tokens_saved] 3,
    [reference_overhead_tokens] 1 and [net_tokens_saved] 2. *)
Theorem C4_estimate_counts_cleared_slot :
  let cb := clipboard_after [OpSet "a" (VStr "hello world!");
                             OpSet "b" (VStr "x");
                             OpRecordUsage "a"; OpClear (Some "a")] in
  let e := Clipboard.get_token_savings_estimate cb in
  Clipboard.list_slots cb = ["b"]
  /\ use_count cb "b" = 0%Z
  /\ sum_over (Clipboard.list_slots cb)
              (fun s => byte_size cb s * use_count cb s)%Z = 0%Z
  /\ sum_over (Clipboard.list_slots cb)
              (fun s => (4 + PyStr.len s) * use_count cb s)%Z = 0%Z
  /\ Clipboard.bytes_substituted e = 12%Z
  /\ Clipboard.estimated_tokens_saved e = 3%Z
  /\ Clipboard.reference_overhead_tokens e = 1%Z
  /\ Clipboard.net_tokens_saved e = 2%Z.
Proof. repeat split. Qed.

(** As long as [clear] has not been called, [bytes_stored] is the sum of
    the byte sizes of the slots. *)
Lemma bytes_stored_without_clear ops :
  forallb (fun op => negb (is_clear op)) ops = true ->
  Clipboard.bytes_stored
    (Clipboard.get_token_savings_estimate (clipboard_after ops))
  = sum_over (Clipboard.list_slots (clipboard_after ops))
             (byte_size (clipboard_after ops)).
Proof.
  intros Hc. rewrite <- (tracked_without_clear ops Hc).
  pose proof (cb_inv_after ops) as I.
  rewrite <- (inv_keys _ I). simpl.
  unfold Dict.values. apply py_sum_items_keys.
  intros kv Hin. now apply byte_size_item.
Qed.

(** ** C7 *)

(** C7. [clear] takes a name out of the slots only: the estimate of a
    clipboard is the same before and after any [clear], so a cleared slot
    still counts in [bytes_stored] and [bytes_substituted].  After
    [set("a", "hello")], one recorded usage and [clear("a")] the clipboard
    has no slot and both are 5. *)
Theorem C7_clear_leaves_estimate :
  (forall cb slot,
      Clipboard.get_token_savings_estimate (Clipboard.clear slot cb)
      = Clipboard.get_token_savings_estimate cb)
  /\ (let cb := clipboard_after [OpSet "a" (VStr "hello"); OpRecordUsage "a";
                                OpClear (Some "a")] in
      Clipboard.list_slots cb = []
      /\ Clipboard.bytes_stored (Clipboard.get_token_savings_estimate cb) = 5%Z
      /\ Clipboard.bytes_substituted (Clipboard.get_token_savings_estimate cb)
         = 5%Z).
Proof.
  split.
  - intros cb [[|c s]|]; reflexivity.
  - repeat split.
Qed.

(** ** Decimal text of an index *)

Lemma digits_of_uint_all (d : Decimal.uint) :
  PyStr.all PyStr.is_ascii_digit (NilEmpty.string_of_uint d) = true.
Proof. induction d; simpl; auto. Qed.

Lemma of_int_of_nat (i : nat) :
  PyStr.of_int (Z.of_nat i)
  = NilEmpty.string_of_uint (N.to_uint (N.of_nat i))
  /\ N.to_uint (N.of_nat i) <> Decimal.Nil.
Proof.
  unfold PyStr.of_int. destruct i as [|i].
  - simpl. split; [reflexivity | discriminate].
  - assert (E : Z.of_nat (S i) = Z.pos (Pos.of_succ_nat i)) by reflexivity.
    assert (E' : N.of_nat (S i) = N.pos (Pos.of_succ_nat i)) by reflexivity.
    rewrite E, E'. simpl.
    pose proof (DecimalPos.Unsigned.to_uint_nonnil (Pos.of_succ_nat i)) as Hn.
    split; [|exact Hn].
    unfold NilZero.string_of_uint.
    destruct (Pos.to_uint (Pos.of_succ_nat i)); [now elim Hn | reflexivity ..].
Qed.

Lemma string_of_uint_nonempty d :
  d <> Decimal.Nil -> PyStr.nonempty (NilEmpty.string_of_uint d) = true.
Proof. destruct d; simpl; [intros H; now elim H | reflexivity ..]. Qed.

Lemma ascii_digit_is_digit c :
  PyStr.is_ascii_digit c = true -> PyStr.isdigit_char c = true.
Proof. unfold PyStr.isdigit_char. now intros ->. Qed.

Lemma ascii_digit_not_colon c :
  PyStr.is_ascii_digit c = true -> Ascii.eqb c Store.colon = false.
Proof.
  destruct c as [[] [] [] [] [] [] [] []]; vm_compute; congruence.
Qed.

Lemma all_digits_isdigit s :
  PyStr.all PyStr.is_ascii_digit s = true -> PyStr.all PyStr.isdigit_char s = true.
Proof.
  induction s as [|c s IH]; simpl; [reflexivity|].
  intros H. apply andb_true_iff in H as [Hc Hs].
  now rewrite (ascii_digit_is_digit _ Hc), IH.
Qed.

Lemma all_digits_no_colon s :
  PyStr.all PyStr.is_ascii_digit s = true ->
  PyStr.contains_char Store.colon s = false.
Proof.
  induction s as [|c s IH]; simpl; [reflexivity|].
  intros H. apply andb_true_iff in H as [Hc Hs].
  now rewrite (ascii_digit_not_colon _ Hc), IH.
Qed.

(** The decimal text of an index is read back as that index. *)
Lemma index_text (i : nat) :
  PyStr.isdigit (PyStr.of_int (Z.of_nat i)) = true
  /\ PyStr.to_int (PyStr.of_int (Z.of_nat i)) = Some (Z.of_nat i)
  /\ PyStr.contains_char Store.colon (PyStr.of_int (Z.of_nat i)) = false.
Proof.
  destruct (of_int_of_nat i) as [E Hn]. rewrite E.
  pose proof (digits_of_uint_all (N.to_uint (N.of_nat i))) as Hd.
  pose proof (string_of_uint_nonempty _ Hn) as Hne.
  repeat split.
  - unfold PyStr.isdigit. now rewrite Hne, all_digits_isdigit.
  - unfold PyStr.to_int. rewrite Hne, Hd. simpl.
    rewrite NilEmpty.usu, DecimalN.Unsigned.of_to.
    now rewrite nat_N_Z.
  - now apply all_digits_no_colon.
Qed.

Lemma contains_char_append c a b :
  PyStr.contains_char c (a ++ b)
  = PyStr.contains_char c a || PyStr.contains_char c b.
Proof.
  induction a as [|x a IH]; simpl; [reflexivity|].
  now rewrite IH, orb_assoc.
Qed.

Lemma rsplit1_none sep s :
  PyStr.contains_char sep s = false -> PyStr.rsplit1 sep s = None.
Proof.
  induction s as [|c s IH]; simpl; [reflexivity|].
  intros H. apply orb_false_iff in H as [Hc Hs].
  now rewrite (IH Hs), Hc.
Qed.

(** [rsplit] cuts at the last separator. *)
Lemma rsplit1_last sep a b :
  PyStr.contains_char sep b = false ->
  PyStr.rsplit1 sep (a ++ String sep b) = Some (a, b).
Proof.
  intros Hb. induction a as [|c a IH]; simpl.
  - now rewrite (rsplit1_none _ _ Hb), Ascii.eqb_refl.
  - now rewrite IH.
Qed.

Lemma has_colon_not_last s :
  PyStr.contains_char Store.colon s = true -> String.eqb s "last" = false.
Proof.
  intros H. destruct (String.eqb_spec s "last") as [->|]; [|reflexivity].
  discriminate.
Qed.

(** ** The result store of a session *)

Lemma stored_get_same t r st :
  Dict.get (_by_tool (Store.stored t r st)) t
  = Some (Dict.get_default (_by_tool st) t [] ++ [mkEntry t r])%list.
Proof.
  unfold Store.stored. simpl. rewrite get_setitem_same.
  unfold Dict.contains, Dict.get_default.
  destruct (Dict.get (_by_tool st) t) eqn:G.
  - now rewrite G.
  - now rewrite get_setitem_same.
Qed.

Lemma stored_get_other t r st t' :
  t <> t' ->
  Dict.get (_by_tool (Store.stored t r st)) t' = Dict.get (_by_tool st) t'.
Proof.
  intros N. unfold Store.stored. simpl.
  rewrite get_setitem_other by assumption.
  destruct (Dict.contains (_by_tool st) t); [reflexivity|].
  now rewrite get_setitem_other.
Qed.

Lemma store_after_snoc calls c :
  store_after (calls ++ [c]) = Store.stored (fst c) (snd c) (store_after calls).
Proof. unfold store_after. now rewrite fold_left_app. Qed.

Lemma entries_of_snoc t calls c :
  entries_of t (calls ++ [c])
  = (entries_of t calls
     ++ (if String.eqb (fst c) t then [mkEntry (fst c) (snd c)] else []))%list.
Proof.
  unfold entries_of. rewrite filter_app, map_app. simpl.
  now destruct (String.eqb (fst c) t).
Qed.

(** The list kept under a tool name is what was stored under it, in the
    order of the calls; a name without results has no list. *)
Lemma by_tool_after calls t :
  Dict.get (_by_tool (store_after calls)) t
  = match entries_of t calls with
    | [] => None
    | es => Some es
    end.
Proof.
  induction calls as [|c calls IH] using rev_ind.
  - reflexivity.
  - rewrite store_after_snoc, entries_of_snoc.
    destruct (String.eqb_spec (fst c) t) as [<-|N].
    + rewrite stored_get_same. unfold Dict.get_default. rewrite IH.
      destruct (entries_of (fst c) calls); reflexivity.
    + rewrite stored_get_other by assumption. rewrite IH, app_nil_r.
      reflexivity.
Qed.

Lemma last_after_snoc calls c :
  _last (store_after (calls ++ [c])) = Some (mkEntry (fst c) (snd c)).
Proof. now rewrite store_after_snoc. Qed.

Lemma list_index_nat {A : Type} (xs : list A) (i : nat) :
  list_index xs (Z.of_nat i) = nth_error xs i.
Proof.
  unfold list_index. cbv zeta.
  assert (E : (Z.of_nat i <? 0)%Z = false) by (apply Z.ltb_ge; lia).
  rewrite !E. simpl.
  destruct (Z.leb_spec (Z.of_nat (length xs)) (Z.of_nat i)).
  - symmetry. apply nth_error_None. lia.
  - now rewrite Nat2Z.id.
Qed.

Lemma nth_error_last {A : Type} (xs : list A) (d : A) :
  xs <> [] -> nth_error xs (length xs - 1) = Some (last xs d).
Proof.
  induction xs as [|x xs IH]; [congruence|]. intros _.
  destruct xs as [|y xs]; [reflexivity|].
  simpl length in *. replace (S (S (length xs)) - 1) with (S (length xs)) by lia.
  simpl nth_error. replace (length xs) with (S (length xs) - 1) at 1 by lia.
  rewrite IH by discriminate. reflexivity.
Qed.

Lemma list_index_minus_one {A : Type} (xs : list A) (d : A) :
  xs <> [] -> list_index xs (-1) = Some (last xs d).
Proof.
  intros H. unfold list_index. cbv zeta.
  change (-1 <? 0)%Z with true. cbv iota.
  assert (0 < length xs) by (destruct xs; [congruence | simpl; lia]).
  assert (E1 : (-1 + Z.of_nat (length xs) <? 0)%Z = false)
    by (apply Z.ltb_ge; lia).
  assert (E2 : (Z.of_nat (length xs) <=? -1 + Z.of_nat (length xs))%Z = false)
    by (apply Z.leb_gt; lia).
  rewrite !E1, E2. cbv [orb].
  replace (Z.to_nat (-1 + Z.of_nat (length xs))) with (length xs - 1) by lia.
  now apply nth_error_last.
Qed.

(** Resolving [tool_name:i]. *)
Lemma get_indexed st t i :
  Store.get (indexed_ref t i) st
  = match Dict.get (_by_tool st) t with
    | None =>
        Raise (KeyError ("No results for tool '" ++ t ++ "'. Available: "
                         ++ py_str (VList (map VStr (Dict.keys (_by_tool st))))))
    | Some results =>
        match nth_error results i with
        | Some e => Ok e
        | None =>
            Raise (KeyError ("Index " ++ PyStr.of_int (Z.of_nat i)
                             ++ " out of range for '" ++ t ++ "' (has "
                             ++ PyStr.of_int (Z.of_nat (length results))
                             ++ " results)"))
        end
    end.
Proof.
  destruct (index_text i) as (Hd & Hi & Hc).
  unfold Store.get, indexed_ref.
  rewrite has_colon_not_last.
  2:{ rewrite contains_char_append. apply orb_true_iff. now right. }
  change (t ++ ":" ++ PyStr.of_int (Z.of_nat i))
    with (t ++ String Store.colon (PyStr.of_int (Z.of_nat i))).
  rewrite (rsplit1_last _ _ _ Hc), Hd, Hi. simpl.
  destruct (Dict.get (_by_tool st) t); [|reflexivity].
  now rewrite list_index_nat.
Qed.

(** ** C2 *)

(** C2, as the code has it.  After any sequence of [store] calls:
    ["last"] resolves to the entry of the last call, and raises [KeyError]
    when there was none; for a tool name with [k] results, [name:i] with
    [i < k] resolves to the [i]-th entry stored under the name and [name:k]
    raises [KeyError]; the bare name resolves to the latest entry stored
    under it when the name is not ["last"], has no colon and has a
    result. *)
Theorem C2_resolve :
  forall (calls : list (string * value)) (t : string),
    let st := store_after calls in
    let es := entries_of t calls in
    (calls = [] -> exists msg, Store.get "last" st = Raise (KeyError msg))
    /\ (forall calls' c, calls = (calls' ++ [c])%list ->
          Store.get "last" st = Ok (mkEntry (fst c) (snd c)))
    /\ (forall i, i < length es ->
          exists e, nth_error es i = Some e
                    /\ Store.get (indexed_ref t i) st = Ok e)
    /\ (exists msg, Store.get (indexed_ref t (length es)) st = Raise (KeyError msg))
    /\ (t <> "last" -> PyStr.contains_char ":" t = false -> es <> [] ->
        Store.get t st = Ok (last es (mkEntry t VNone))).
Proof.
  intros calls t st es.
  assert (Hby : Dict.get (_by_tool st) t
                = match es with [] => None | _ => Some es end).
  { unfold st, es. rewrite by_tool_after.
    now destruct (entries_of t calls). }
  split; [|split; [|split; [|split]]].
  - intros ->. eexists. reflexivity.
  - intros calls' c ->. unfold st, Store.get. simpl String.eqb.
    now rewrite last_after_snoc.
  - intros i Hi. destruct (nth_error es i) as [e|] eqn:E.
    + exists e. split; [reflexivity|].
      rewrite get_indexed, Hby.
      destruct es; [destruct i; discriminate|]. now rewrite E.
    + apply nth_error_None in E. lia.
  - rewrite get_indexed, Hby. destruct es as [|e es'] eqn:Ees.
    + eexists. reflexivity.
    + assert (E : nth_error (e :: es') (length (e :: es')) = None)
        by (apply nth_error_None; lia).
      rewrite E. eexists. reflexivity.
  - intros Hl Hc Hne. unfold Store.get.
    apply String.eqb_neq in Hl. rewrite Hl.
    rewrite (rsplit1_none Store.colon _ Hc). simpl. fold st. rewrite Hby.
    destruct es as [|e es'] eqn:Ees; [congruence|].
    now rewrite (list_index_minus_one _ (mkEntry t VNone)).
Qed.

Lemma C2_witness :
  Store.get "read_file"
    (store_after [("read_file", VStr "one"); ("http_request", VNone);
                  ("read_file", VStr "two")])
  = Ok (mkEntry "read_file" (VStr "two"))
  /\ Store.get "read_file:0"
       (store_after [("read_file", VStr "one"); ("http_request", VNone);
                     ("read_file", VStr "two")])
     = Ok (mkEntry "read_file" (VStr "one")).
Proof.
  destruct (C2_resolve [("read_file", VStr "one"); ("http_request", VNone);
                        ("read_file", VStr "two")] "read_file")
    as (_ & _ & Hi & _ & Hb).
  split.
  - apply Hb; [discriminate | reflexivity | discriminate].
  - destruct (Hi 0) as (e & He & Hg); [simpl; lia|].
    injection He as <-. exact Hg.
Defined.

(** C2 as it is stated fails for the bare reference: a tool name with a
    colon is cut at its last colon, and the name ["last"] is taken by the
    latest result of any tool.  In both cases one result is stored under
    the name and the bare reference does not resolve to it. *)
Lemma C2_counterexample :
  (entries_of "a:b" [("a:b", VInt 1)] = [mkEntry "a:b" (VInt 1)]
   /\ Store.get "a:b" (store_after [("a:b", VInt 1)])
      = Raise (KeyError "Invalid index in source 'a:b'")
   /\ Store.get "a:b" (store_after [("a:b", VInt 1)])
      <> Ok (mkEntry "a:b" (VInt 1)))
  /\ (entries_of "last" [("last", VInt 1); ("x", VInt 2)]
      = [mkEntry "last" (VInt 1)]
      /\ Store.get "last" (store_after [("last", VInt 1); ("x", VInt 2)])
         = Ok (mkEntry "x" (VInt 2))
      /\ Store.get "last" (store_after [("last", VInt 1); ("x", VInt 2)])
         <> Ok (mkEntry "last" (VInt 1))).
Proof. repeat split; discriminate. Qed.

(** ** C8 *)

(** C8, as the code has it.  [store] cannot raise; it returns [None]; it
    puts the new entry after the [k] entries already stored under the
    name, leaves the other names alone and makes the entry the last one.
    The ordinal [k] is the [idx] of the log line, and [name:k] resolves to
    the new entry. *)
Theorem C8_store :
  forall (calls : list (string * value)) (t : string) (v : value),
    let st := store_after calls in
    let k := length (entries_of t calls) in
    let st' := snd (Store.store t v st) in
    fst (Store.store t v st) = VNone
    /\ Dict.get (_by_tool st') t = Some (entries_of t calls ++ [mkEntry t v])%list
    /\ (forall t', t' <> t -> Dict.get (_by_tool st') t' = Dict.get (_by_tool st) t')
    /\ _last st' = Some (mkEntry t v)
    /\ Store.store_idx t v st = Z.of_nat k
    /\ Store.get (indexed_ref t k) st' = Ok (mkEntry t v)
    /\ Store.get "last" st' = Ok (mkEntry t v).
Proof.
  intros calls t v st k st'.
  assert (E : Dict.get (_by_tool st') t
              = Some (entries_of t calls ++ [mkEntry t v])%list).
  { change st' with (Store.stored t v st).
    rewrite stored_get_same. f_equal. f_equal.
    unfold Dict.get_default, st. rewrite by_tool_after.
    now destruct (entries_of t calls). }
  split; [reflexivity|]. split; [exact E|].
  split; [intros t' N; change st' with (Store.stored t v st);
          apply stored_get_other; congruence|].
  split; [reflexivity|].
  split.
  { unfold Store.store_idx. fold st. change (Store.stored t v st) with st'.
    unfold Dict.get_default. rewrite E, length_app. simpl. fold k. lia. }
  split; [|reflexivity].
  rewrite get_indexed, E. unfold k.
  rewrite nth_error_app2 by lia. now rewrite Nat.sub_diag.
Qed.

(** C8 as it is stated fails: the first [store] under a name returns
    [None], not the ordinal 0. *)
Lemma C8_counterexample :
  fst (Store.store "read_file" (VStr "text") Store.init) = VNone
  /\ fst (Store.store "read_file" (VStr "text") Store.init) <> VInt 0.
Proof. split; [reflexivity | discriminate]. Qed.

(** ** C6 *)

(** A key that the current dictionary lacks, or a segment that the
    current node cannot take, raises [KeyError] with the path and the
    segment in its message. *)
Lemma json_path_step_not_found path current part :
  match current with
  | VDict d => Dict.get d part = None
  | VList _ => PyStr.isdigit part = false
  | _ => True
  end ->
  json_path_step path current part
  = Raise (KeyError ("Path '" ++ path ++ "' not found at '" ++ part ++ "'")).
Proof.
  destruct current; simpl; try reflexivity.
  - now intros ->.
  - now intros ->.
Qed.

(** C6.  Against [{"items": ["a", "b", "c"]}], the path ["items.1"]
    yields ["b"] and a missing key raises [KeyError] naming the path and
    the segment, but the path ["items.9"] raises the [IndexError] of the
    list subscript, whose message names neither. *)
Theorem C6_json_path_out_of_range :
  let stored := VDict [("items", VList [VStr "a"; VStr "b"; VStr "c"])] in
  _extract_by_json_path stored "items.1" = Ok (VStr "b")
  /\ _extract_by_json_path stored "count.1"
     = Raise (KeyError "Path 'count.1' not found at 'count'")
  /\ _extract_by_json_path stored "items.first"
     = Raise (KeyError "Path 'items.first' not found at 'first'")
  /\ _extract_by_json_path stored "items.9"
     = Raise (IndexError "list index out of range").
Proof. repeat split. Qed.

(** ** C5 *)

Lemma contains_get {V : Type} (d : Dict.t V) k v :
  Dict.get d k = Some v -> Dict.contains d k = true.
Proof. unfold Dict.contains. now intros ->. Qed.

Lemma contains_none {V : Type} (d : Dict.t V) k :
  Dict.get d k = None -> Dict.contains d k = false.
Proof. unfold Dict.contains. now intros ->. Qed.

(** C5.  [execute_copy] applies one extraction: by [json_path] when the
    arguments have one, whatever else they have; else by [pattern] when
    they have one; else by lines when they have both [start_line] and
    [end_line]; else the full text.  With a [json_path], adding or changing
    any other argument changes nothing.  The slot receives the one value
    extracted. *)
Theorem C5_extraction_precedence :
  forall (re_search : string -> string -> result (option string))
         (args : Dict.t value) (r : value),
    (forall p, Dict.get args "json_path" = Some (VStr p) ->
       extract re_search args r
       = (x <- _extract_by_json_path r p ;; Ok (x, "json_path=" ++ p)))
    /\ (forall pat,
          Dict.get args "json_path" = None ->
          Dict.get args "pattern" = Some (VStr pat) ->
          extract re_search args r
          = (text <- _get_text_content r ;;
             x <- _extract_by_pattern re_search text pat ;;
             Ok (VStr x, "pattern=" ++ PyStr.take 50 pat ++ "...")))
    /\ (forall s e,
          Dict.get args "json_path" = None ->
          Dict.get args "pattern" = None ->
          Dict.get args "start_line" = Some (VInt s) ->
          Dict.get args "end_line" = Some (VInt e) ->
          extract re_search args r
          = (text <- _get_text_content r ;;
             Ok (VStr (_extract_by_lines text s e),
                 "lines " ++ PyStr.of_int s ++ "-" ++ PyStr.of_int e)))
    /\ (Dict.get args "json_path" = None ->
        Dict.get args "pattern" = None ->
        Dict.get args "start_line" = None \/ Dict.get args "end_line" = None ->
        extract re_search args r
        = (text <- _get_text_content r ;; Ok (VStr text, "full content")))
    /\ (forall k x,
          Dict.contains args "json_path" = true -> k <> "json_path" ->
          extract re_search (Dict.setitem args k x) r = extract re_search args r)
    /\ (forall cb st slot source src x m,
          Dict.get args "slot" = Some (VStr slot) ->
          Dict.get args "source" = Some (VStr source) ->
          Store.get source st = Ok src ->
          extract re_search args (result_of src) = Ok (x, m) ->
          snd (execute_copy re_search cb st (VDict args))
          = Clipboard.set slot x cb).
Proof.
  intros re_search args r.
  split; [|split; [|split; [|split; [|split]]]].
  - intros p H. unfold extract, getitem.
    now rewrite (contains_get _ _ _ H), H.
  - intros pat Hj Hp. unfold extract, getitem.
    rewrite (contains_none _ _ Hj), (contains_get _ _ _ Hp), Hp.
    now destruct (_get_text_content r).
  - intros s e Hj Hp Hs He. unfold extract, getitem.
    rewrite (contains_none _ _ Hj), (contains_none _ _ Hp).
    rewrite (contains_get _ _ _ Hs), (contains_get _ _ _ He), Hs, He.
    now destruct (_get_text_content r).
  - intros Hj Hp Hl. unfold extract.
    rewrite (contains_none _ _ Hj), (contains_none _ _ Hp).
    destruct Hl as [Hl|Hl]; rewrite (contains_none _ _ Hl);
      [|rewrite andb_false_r]; reflexivity.
  - intros k x Hc N. unfold extract, getitem, Dict.contains in *.
    rewrite (get_setitem_other args k "json_path" x N).
    destruct (Dict.get args "json_path"); [reflexivity | discriminate].
  - intros cb st slot source src x m Hslot Hsrc Hget Hex.
    unfold execute_copy, getitem. rewrite Hslot, Hsrc. simpl.
    rewrite Hget. simpl. rewrite Hex. reflexivity.
Qed.

Lemma C5_witness :
  extract (fun _ _ => Ok (Some "never used"))
          [("slot", VStr "s"); ("source", VStr "last");
           ("json_path", VStr "items.1"); ("pattern", VStr "b|c");
           ("start_line", VInt 1); ("end_line", VInt 1)]
          (VDict [("items", VList [VStr "a"; VStr "b"; VStr "c"])])
  = Ok (VStr "b", "json_path=items.1").
Proof.
  destruct (C5_extraction_precedence
              (fun _ _ => Ok (Some "never used"))
              [("slot", VStr "s"); ("source", VStr "last");
               ("json_path", VStr "items.1"); ("pattern", VStr "b|c");
               ("start_line", VInt 1); ("end_line", VInt 1)]
              (VDict [("items", VList [VStr "a"; VStr "b"; VStr "c"])]))
    as (H & _).
  rewrite (H "items.1" eq_refl). reflexivity.
Defined.

(** ** C9 *)

(** C9, as the code has it.  An exception of the tool executor leaves
    [_execute_tool_call] as it was raised, on the direct path and on the
    [template_invoke] path; the call record is appended after the tool has
    returned, so the log of tool calls is as before the call, and nothing
    is stored in the result store. *)
Theorem C9_raising_tool :
  forall (re_search : string -> string -> result (option string))
         (World : Type)
         (execute_tool : value -> value -> World -> result value * World)
         (tool_input : value) (a : ClipboardAgent World) (e : exn) (w' : World),
    (forall tool_name,
        tool_name <> "copy" -> tool_name <> "template_invoke" ->
        execute_tool (VStr tool_name) tool_input (world _ a) = (Raise e, w') ->
        _execute_tool_call re_search World execute_tool tool_name tool_input a
        = (Raise e,
           mkAgent World (clipboard _ a) (result_store _ a) (tool_calls _ a) w'))
    /\ (forall template tool_name raw_params rendered cb',
          getitem tool_input "template" = Ok template ->
          getitem template "tool" = Ok tool_name ->
          getitem template "parameters" = Ok raw_params ->
          Template.render_template raw_params (clipboard _ a) = (Ok rendered, cb') ->
          execute_tool tool_name rendered (world _ a) = (Raise e, w') ->
          _execute_tool_call re_search World execute_tool "template_invoke"
                             tool_input a
          = (Raise e, mkAgent World cb' (result_store _ a) (tool_calls _ a) w')).
Proof.
  intros re_search World execute_tool tool_input a e w'. split.
  - intros tool_name N1 N2 H. unfold _execute_tool_call.
    apply String.eqb_neq in N1, N2. rewrite N1, N2, H. reflexivity.
  - intros template tool_name raw_params rendered cb' Ht Hn Hp Hr Hx.
    unfold _execute_tool_call. simpl String.eqb. cbv iota.
    rewrite Ht. unfold execute_template_invoke.
    rewrite Hn, Hp, Hr, Hx. reflexivity.
Qed.

Lemma C9_witness :
  _execute_tool_call (fun _ _ => Ok None) unit failing_tool "read_file"
    (VDict [("path", VStr "notes.txt")])
    (mkAgent unit Clipboard.init Store.init [] tt)
  = (Raise (Other "OSError" "cannot open file"),
     mkAgent unit Clipboard.init Store.init [] tt).
Proof.
  destruct (C9_raising_tool (fun _ _ => Ok None) unit failing_tool
              (VDict [("path", VStr "notes.txt")])
              (mkAgent unit Clipboard.init Store.init [] tt)
              (Other "OSError" "cannot open file") tt) as [H _].
  apply H; [discriminate | discriminate | reflexivity].
Defined.

(** C9 as it is stated fails: after a call whose tool raises, the log of
    tool calls has no record of the call. *)
Lemma C9_counterexample :
  tool_calls unit
    (snd (_execute_tool_call (fun _ _ => Ok None) unit failing_tool "read_file"
            (VDict [("path", VStr "notes.txt")])
            (mkAgent unit Clipboard.init Store.init [] tt)))
  = []
  /\ fst (_execute_tool_call (fun _ _ => Ok None) unit failing_tool "read_file"
            (VDict [("path", VStr "notes.txt")])
            (mkAgent unit Clipboard.init Store.init [] tt))
     = Raise (Other "OSError" "cannot open file").
Proof. split; reflexivity. Qed.

(** ** Rendering as a pure result and a list of usages *)

Lemma record_usage_slots name cb :
  _slots (Clipboard.record_usage name cb) = _slots cb
  /\ _bytes_stored (Clipboard.record_usage name cb) = _bytes_stored cb.
Proof.
  unfold Clipboard.record_usage.
  destruct (Dict.get (_usage_count cb) name); split; reflexivity.
Qed.

Lemma record_all_slots names cb :
  _slots (record_all names cb) = _slots cb
  /\ _bytes_stored (record_all names cb) = _bytes_stored cb.
Proof.
  revert cb. induction names as [|n names IH]; intros cb; simpl.
  - split; reflexivity.
  - destruct (IH (Clipboard.record_usage n cb)) as [E1 E2].
    destruct (record_usage_slots n cb) as [E3 E4].
    unfold record_all in *. simpl. rewrite E1, E2, E3, E4. split; reflexivity.
Qed.

Lemma record_all_app a b cb :
  record_all (a ++ b) cb = record_all b (record_all a cb).
Proof. unfold record_all. apply fold_left_app. Qed.

Lemma first_unknown_app slots a b :
  first_unknown slots (a ++ b)
  = match first_unknown slots a with
    | Some n => Some n
    | None => first_unknown slots b
    end.
Proof.
  induction a as [|n a IH]; simpl; [reflexivity|].
  now destruct (Dict.contains slots n).
Qed.

Lemma known_prefix_all slots a :
  first_unknown slots a = None -> known_prefix slots a = a.
Proof.
  induction a as [|n a IH]; simpl; [reflexivity|].
  destruct (Dict.contains slots n); [|discriminate].
  intros H. now rewrite IH.
Qed.

Lemma known_prefix_app slots a b :
  known_prefix slots (a ++ b)
  = match first_unknown slots a with
    | Some _ => known_prefix slots a
    | None => (a ++ known_prefix slots b)%list
    end.
Proof.
  induction a as [|n a IH]; simpl; [reflexivity|].
  destruct (Dict.contains slots n); [|reflexivity].
  rewrite IH. now destruct (first_unknown slots a).
Qed.

(** The names split at the first unknown one. *)
Lemma first_unknown_split slots names name :
  first_unknown slots names = Some name ->
  exists rest,
    names = (known_prefix slots names ++ name :: rest)%list
    /\ Dict.contains slots name = false.
Proof.
  induction names as [|n names IH]; simpl; [discriminate|].
  destruct (Dict.contains slots n) eqn:C.
  - intros H. destruct (IH H) as (rest & E & Hc).
    exists rest. split; [simpl; now rewrite <- E | exact Hc].
  - intros [= ->]. exists names. split; [reflexivity | exact C].
Qed.

Lemma known_prefix_known slots names n :
  In n (known_prefix slots names) -> Dict.contains slots n = true.
Proof.
  induction names as [|m names IH]; simpl; [contradiction|].
  destruct (Dict.contains slots m) eqn:C; [|contradiction].
  intros [<-|H]; [exact C | now apply IH].
Qed.

Lemma runs_ret {A : Type} (a : A) : runs_as (ret a) [] (fun _ => a).
Proof. intros cb. reflexivity. Qed.

Lemma runs_bind {A B : Type} (m : M A) (k : A -> M B) n1 n2 p1 p2 :
  runs_as m n1 p1 ->
  (forall a, runs_as (k a) n2 (p2 a)) ->
  runs_as (bindM m k) (n1 ++ n2) (fun slots => p2 (p1 slots) slots).
Proof.
  intros H1 H2 cb. unfold bindM. rewrite (H1 cb).
  rewrite first_unknown_app, known_prefix_app.
  destruct (first_unknown (_slots cb) n1) eqn:F.
  - reflexivity.
  - rewrite (known_prefix_all _ _ F), (H2 (p1 (_slots cb))).
    destruct (record_all_slots n1 cb) as [E _]. rewrite E.
    now rewrite record_all_app.
Qed.

Lemma runs_map {A B : Type} (m : M A) (f : A -> B) names p :
  runs_as m names p ->
  runs_as (bindM m (fun a => ret (f a))) names (fun slots => f (p slots)).
Proof.
  intros H.
  pose proof (runs_bind m (fun a => ret (f a)) names [] p
                        (fun a _ => f a) H (fun a => runs_ret (f a))) as R.
  now rewrite app_nil_r in R.
Qed.

Lemma runs_get_and_record {A : Type} (f : value -> A) name :
  runs_as (fun cb => match Clipboard.get name cb with
                     | Ok v => (Ok (f v), Clipboard.record_usage name cb)
                     | Raise e => (Raise e, cb)
                     end)
          [name] (fun slots => f (slot_value slots name)).
Proof.
  intros cb. unfold Clipboard.get, slot_value. simpl.
  unfold Dict.contains.
  destruct (Dict.get (_slots cb) name); reflexivity.
Qed.

Lemma runs_replace_slot name :
  runs_as (Template.replace_slot name) [name]
          (fun slots => py_str (slot_value slots name)).
Proof. apply (runs_get_and_record py_str). Qed.

Lemma runs_sub ps :
  runs_as (Template.sub ps) (slots_of_pieces ps) (sub_text ps).
Proof.
  induction ps as [|[c|name] ps IH]; simpl.
  - apply runs_ret.
  - apply (runs_map _ (String c) _ _ IH).
  - apply (runs_bind _ _ [name] _ _ (fun t slots => t ++ sub_text ps slots)
                     (runs_replace_slot name)).
    intros t. apply (runs_map _ (fun r => t ++ r) _ _ IH).
Qed.

Lemma runs_render_str s :
  exists pure, runs_as (Template.render_str s) (slots_of_str s) pure.
Proof.
  unfold Template.render_str, slots_of_str.
  destruct (Template.fullmatch (PyStr.strip s)) as [name|].
  - eexists. apply (runs_get_and_record (fun v => v)).
  - eexists. apply (runs_map _ VStr _ _ (runs_sub _)).
Qed.

Lemma runs_render_list (f : value -> M value) (xs : list value) :
  Forall (fun x => exists pure, runs_as (f x) (slots_of x) pure) xs ->
  exists pure,
    runs_as (Template.render_list f xs) (flat_map slots_of xs) pure.
Proof.
  induction 1 as [|x xs (px & Hx) _ (pxs & IH)]; simpl.
  - eexists. apply runs_ret.
  - eexists. apply (runs_bind _ _ _ _ _ (fun x' slots => x' :: pxs slots) Hx).
    intros x'. apply (runs_map _ (fun r => x' :: r) _ _ IH).
Qed.

Lemma runs_render_items (f : value -> M value) (kvs : list (string * value)) :
  Forall (fun kv => exists pure, runs_as (f (snd kv)) (slots_of (snd kv)) pure)
         kvs ->
  exists pure,
    runs_as (Template.render_items f kvs)
            (flat_map (fun kv => slots_of (snd kv)) kvs) pure.
Proof.
  induction 1 as [|kv kvs (pv & Hv) _ (pkvs & IH)]; simpl.
  - eexists. apply runs_ret.
  - eexists.
    apply (runs_bind _ _ _ _ _ (fun v' slots => (fst kv, v') :: pkvs slots) Hv).
    intros v'. apply (runs_map _ (fun r => (fst kv, v') :: r) _ _ IH).
Qed.

(** Induction on a value with the hypothesis on the members of a list
    and of a dictionary. *)
Lemma value_nested_ind (P : value -> Prop) :
  P VNone ->
  (forall b, P (VBool b)) ->
  (forall z, P (VInt z)) ->
  (forall s, P (VStr s)) ->
  (forall l, Forall P l -> P (VList l)) ->
  (forall d, Forall (fun kv => P (snd kv)) d -> P (VDict d)) ->
  forall v, P v.
Proof.
  intros HN HB HI HS HL HD. fix IH 1. intros [|b|z|s|l|d].
  - exact HN.
  - apply HB.
  - apply HI.
  - apply HS.
  - apply HL. induction l as [|x l IHl]; constructor; [apply IH | exact IHl].
  - apply HD. induction d as [|[k x] d IHd]; constructor; [apply IH | exact IHd].
Qed.

(** [render_template] resolves the placeholders of the template in order
    and stops at the first missing slot. *)
Lemma runs_render template :
  exists pure,
    runs_as (Template.render_template template) (slots_of template) pure.
Proof.
  induction template as [| b | z | s | l IH | d IH] using value_nested_ind;
    simpl; try (eexists; apply runs_ret).
  - apply runs_render_str.
  - destruct (runs_render_list _ _ IH) as (p & Hp).
    eexists. apply (runs_map _ VList _ _ Hp).
  - destruct (runs_render_items _ _ IH) as (p & Hp).
    eexists. apply (runs_map _ VDict _ _ Hp).
Qed.

(** The use counts after recording usages of slots of the clipboard. *)
Lemma use_count_record_all names cb :
  cb_inv cb ->
  (forall n, In n names -> Dict.contains (_slots cb) n = true) ->
  forall s, use_count (record_all names cb) s
            = (use_count cb s + occurrences names s)%Z.
Proof.
  revert cb. unfold occurrences.
  induction names as [|n names IH]; intros cb I Hk s; simpl.
  - lia.
  - assert (Hn : Dict.get (_slots cb) n <> None).
    { specialize (Hk n (or_introl eq_refl)). unfold Dict.contains in Hk.
      destruct (Dict.get (_slots cb) n); [discriminate | discriminate]. }
    destruct (record_usage_effect n cb I Hn) as (Es & _ & E1 & E2).
    change (record_all (n :: names) cb)
      with (record_all names (Clipboard.record_usage n cb)).
    rewrite IH.
    + destruct (string_dec n s) as [->|N].
      * rewrite E1. lia.
      * rewrite E2 by congruence. lia.
    + now apply cb_inv_record_usage.
    + intros m Hm. rewrite Es. apply Hk. now right.
Qed.

(** ** C10 *)

(** C10.  When [render_template] raises on a clipboard of a session, the
    slots and their sizes are as before, and the exception is the
    [KeyError] of the first placeholder of the template, in the order of
    rendering, that names no slot; every placeholder before it was
    resolved, and the use count of each slot has grown by the number of
    those placeholders that name it. *)
Theorem C10_failed_render_keeps_usages :
  forall (ops : list cb_op) (template : value) (e : exn) (cb' : ClipboardState),
    Template.render_template template (clipboard_after ops) = (Raise e, cb') ->
    _slots cb' = _slots (clipboard_after ops)
    /\ _bytes_stored cb' = _bytes_stored (clipboard_after ops)
    /\ exists resolved name rest,
         slots_of template = (resolved ++ name :: rest)%list
         /\ (forall n, In n resolved -> Clipboard.has n (clipboard_after ops) = true)
         /\ Clipboard.has name (clipboard_after ops) = false
         /\ e = missing_slot (_slots (clipboard_after ops)) name
         /\ forall s, use_count cb' s
                      = (use_count (clipboard_after ops) s
                         + occurrences resolved s)%Z.
Proof.
  intros ops template e cb' H.
  destruct (runs_render template) as (pure & R).
  rewrite (R (clipboard_after ops)) in H.
  destruct (first_unknown (_slots (clipboard_after ops)) (slots_of template))
    as [name|] eqn:F; [|discriminate].
  injection H as <- <-.
  destruct (record_all_slots
              (known_prefix (_slots (clipboard_after ops)) (slots_of template))
              (clipboard_after ops)) as [E1 E2].
  split; [exact E1|]. split; [exact E2|].
  destruct (first_unknown_split _ _ _ F) as (rest & Hs & Hc).
  exists (known_prefix (_slots (clipboard_after ops)) (slots_of template)),
         name, rest.
  split; [exact Hs|].
  split; [intros n Hn; now apply known_prefix_known in Hn|].
  split; [exact Hc|]. split; [reflexivity|].
  apply use_count_record_all; [apply cb_inv_after|].
  intros n Hn. now apply known_prefix_known in Hn.
Qed.

Lemma C10_witness :
  exists cb',
    Template.render_template
      (VDict [("path", VStr "{{a}}.txt"); ("body", VStr "{{a}} {{missing}}")])
      (clipboard_after [OpSet "a" (VStr "x")])
    = (Raise (KeyError "Clipboard slot 'missing' not found. Available: ['a']"),
       cb')
    /\ use_count cb' "a" = 2%Z
    /\ _slots cb' = [("a", VStr "x")].
Proof.
  eexists. split; [reflexivity|].
  destruct (C10_failed_render_keeps_usages
              [OpSet "a" (VStr "x")]
              (VDict [("path", VStr "{{a}}.txt");
                      ("body", VStr "{{a}} {{missing}}")])
              _ _ eq_refl) as (Hs & _ & _).
  split; [reflexivity | exact Hs].
Defined.

(** ** Scanning a template string *)

Lemma append_eq_split (l rest p r : string) :
  l ++ rest = p ++ r ->
  (exists k, l = p ++ k /\ r = k ++ rest)
  \/ (exists k, k <> EmptyString /\ p = l ++ k /\ rest = k ++ r).
Proof.
  revert p. induction l as [|c l IH]; intros p H; simpl in H.
  - destruct p as [|d p].
    + left. exists EmptyString. split; [reflexivity | now simpl in *].
    + right. exists (String d p). repeat split; [discriminate | exact H].
  - destruct p as [|d p]; simpl in H.
    + left. exists (String c l). split; [reflexivity | now rewrite <- H].
    + injection H as <- H. destruct (IH p H) as [(k & E1 & E2)|(k & N & E1 & E2)].
      * left. exists k. split; [simpl; now rewrite E1 | exact E2].
      * right. exists k. repeat split; [exact N | simpl; now rewrite E1 | exact E2].
Qed.

Lemma scan_skip (p rest : string) :
  Template.scan (String.length p) (p ++ rest) = Template.scan 0 rest.
Proof. induction p as [|c p IH]; simpl; [reflexivity | exact IH]. Qed.

Lemma scan_start c s :
  Template.scan 0 (String c s)
  = match Template.match_at (String c s) with
    | Some (name, _) =>
        Template.Slot name :: Template.scan (3 + String.length name) s
    | None => Template.Text c :: Template.scan 0 s
    end.
Proof. reflexivity. Qed.

(** At a placeholder the scan hands the name over and goes on after it. *)
Lemma scan_placeholder name rest :
  identifier name = true ->
  Template.scan 0 (placeholder name ++ rest)
  = Template.Slot name :: Template.scan 0 rest.
Proof.
  intros H. pose proof (match_at_placeholder name rest H) as Hm.
  rewrite placeholder_app in *.
  rewrite scan_start, Hm. apply (f_equal (cons (Template.Slot name))).
  replace (String "{" (name ++ String "}" (String "}" rest)))
    with (("{" ++ name ++ "}}") ++ rest)
    by (simpl; now rewrite append_assoc).
  replace (3 + String.length name) with (String.length ("{" ++ name ++ "}}")).
  - apply scan_skip.
  - simpl. rewrite length_append. simpl. lia.
Qed.

Lemma word_not_open c : PyStr.is_word c = true -> not_open c = true.
Proof.
  unfold not_open. destruct (Ascii.eqb_spec c "{"%char) as [->|]; [|reflexivity].
  rewrite is_word_open_brace. discriminate.
Qed.

Lemma all_word_not_open s :
  PyStr.all PyStr.is_word s = true -> PyStr.all not_open s = true.
Proof.
  induction s as [|c s IH]; simpl; [reflexivity|].
  intros H. apply andb_true_iff in H as [Hc Hs].
  now rewrite (word_not_open _ Hc), IH.
Qed.

(** No match of the pattern starts inside a literal of a template. *)
Lemma no_match_in_literal c l rest :
  placeholder_free (String c l) -> literal_end rest ->
  Template.match_at (String c l ++ rest) = None.
Proof.
  intros Hfree Hend.
  destruct (Template.match_at (String c l ++ rest)) as [[n r]|] eqn:Hm;
    [exfalso | reflexivity].
  apply match_at_inv in Hm as [Hid Hm].
  apply append_eq_split in Hm as [(k & E1 & _)|(k & Nk & E1 & E2)].
  - apply (Hfree EmptyString n k Hid). exact E1.
  - destruct Hend as [->|(n' & r' & Hid' & ->)].
    + destruct k; [now elim Nk | discriminate].
    + destruct k as [|x k]; [now elim Nk|].
      rewrite placeholder_app in E2. simpl in E2. injection E2 as Ex E2.
      apply identifier_inv in Hid as (Hw & a & w & ->).
      unfold placeholder in E1. simpl in E1. injection E1 as Ec E1.
      subst x c.
      destruct l as [|y l]; simpl in E1.
      * injection E1 as E1. subst k. simpl in E2. injection E2 as Ea _.
        subst a. simpl in Hw. discriminate.
      * injection E1 as Ey E1.
        assert (Ha : PyStr.all not_open (String a (w ++ "}}")) = true).
        { change (String a (w ++ "}}")) with (String a w ++ "}}").
          rewrite all_append, (all_word_not_open _ Hw). reflexivity. }
        rewrite E1, all_append in Ha. apply andb_true_iff in Ha as [_ Ha].
        simpl in Ha. discriminate.
Qed.

Lemma placeholder_free_tail c l :
  placeholder_free (String c l) -> placeholder_free l.
Proof.
  intros H pre name post Hid ->.
  apply (H (String c pre) name post Hid). reflexivity.
Qed.

(** The scan copies a literal of a template character by character. *)
Lemma scan_literal l rest :
  placeholder_free l -> literal_end rest ->
  Template.scan 0 (l ++ rest) = (text_pieces l ++ Template.scan 0 rest)%list.
Proof.
  intros Hfree Hend. induction l as [|c l IH]; [reflexivity|].
  pose proof (no_match_in_literal c l rest Hfree Hend) as Hm.
  simpl append in Hm |- *. rewrite scan_start, Hm.
  apply (f_equal (cons (Template.Text c))).
  apply IH. now apply placeholder_free_tail in Hfree.
Qed.

Lemma slots_of_text_pieces l ps :
  slots_of_pieces (text_pieces l ++ ps) = slots_of_pieces ps.
Proof. induction l as [|c l IH]; simpl; [reflexivity | exact IH]. Qed.

Lemma sub_text_text_pieces l ps slots :
  sub_text (text_pieces l ++ ps) slots = l ++ sub_text ps slots.
Proof. induction l as [|c l IH]; simpl; [reflexivity | now rewrite IH]. Qed.

Lemma template_of_cons l n segs tail :
  template_of ((l, n) :: segs) tail
  = l ++ placeholder n ++ template_of segs tail.
Proof. reflexivity. Qed.

Lemma expansion_cons slots l n segs tail :
  expansion slots ((l, n) :: segs) tail
  = l ++ py_str (slot_value slots n) ++ expansion slots segs tail.
Proof. reflexivity. Qed.

(** What the scan finds in a template written as literals and
    placeholders: the placeholders in order, and the text with the values
    in their place. *)
Lemma scan_template_of segs tail :
  Forall (fun seg => placeholder_free (fst seg) /\ identifier (snd seg) = true)
         segs ->
  placeholder_free tail ->
  slots_of_pieces (Template.scan 0 (template_of segs tail)) = map snd segs
  /\ forall slots,
       sub_text (Template.scan 0 (template_of segs tail)) slots
       = expansion slots segs tail.
Proof.
  intros Hsegs Htail.
  induction Hsegs as [|[l n] segs [Hl Hn] _ [IH1 IH2]].
  - change (template_of [] tail) with tail.
    assert (E : Template.scan 0 tail = (text_pieces tail ++ [])%list).
    { rewrite <- (append_nil_r tail) at 1.
      now rewrite scan_literal by (assumption || now left). }
    rewrite E. split; [apply slots_of_text_pieces|].
    intros slots. rewrite sub_text_text_pieces. simpl. apply append_nil_r.
  - simpl in Hl, Hn. rewrite template_of_cons.
    rewrite scan_literal, scan_placeholder; try assumption.
    2:{ right. now exists n, (template_of segs tail). }
    split.
    + rewrite slots_of_text_pieces. simpl. now rewrite IH1.
    + intros slots. rewrite sub_text_text_pieces, expansion_cons.
      simpl. now rewrite IH2.
Qed.

Lemma free_b_start l :
  free_b l
  = match Template.match_at l with
    | Some _ => false
    | None => match l with
              | EmptyString => true
              | String _ l' => free_b l'
              end
    end.
Proof. destruct l; reflexivity. Qed.

(** A text at no position of which the pattern matches has no
    placeholder. *)
Lemma free_b_sound l : free_b l = true -> placeholder_free l.
Proof.
  induction l as [|c l IH]; intros H pre name post Hid E.
  - destruct pre; [|discriminate]. rewrite placeholder_app in E. discriminate.
  - destruct pre as [|d pre].
    + change (EmptyString ++ placeholder name ++ post)
        with (placeholder name ++ post) in E.
      rewrite free_b_start, E, (match_at_placeholder _ _ Hid) in H.
      discriminate.
    + simpl in E. injection E as _ E.
      assert (Hl : free_b l = true).
      { rewrite free_b_start in H.
        destruct (Template.match_at (String c l)); [discriminate | exact H]. }
      exact (IH Hl pre name post Hid E).
Qed.

Lemma placeholder_free_cons c l :
  Template.match_at (String c l) = None -> placeholder_free l ->
  placeholder_free (String c l).
Proof.
  intros Hm Hl pre name post Hid E. destruct pre as [|d pre].
  - change (EmptyString ++ placeholder name ++ post)
      with (placeholder name ++ post) in E.
    rewrite E, (match_at_placeholder _ _ Hid) in Hm. discriminate.
  - simpl in E. injection E as _ E. exact (Hl pre name post Hid E).
Qed.

Lemma placeholder_free_empty : placeholder_free EmptyString.
Proof.
  intros pre name post _ E. destruct pre; [|discriminate].
  rewrite placeholder_app in E. discriminate.
Qed.

(** Every string is literals and placeholders in turn. *)
Lemma template_decomposes (s : string) :
  exists segs tail,
    s = template_of segs tail
    /\ Forall (fun seg => placeholder_free (fst seg) /\ identifier (snd seg) = true)
              segs
    /\ placeholder_free tail.
Proof.
  remember (String.length s) as n eqn:Hn.
  revert s Hn. induction n as [n IH] using lt_wf_ind. intros s Hn.
  destruct s as [|c s].
  - exists [], EmptyString.
    repeat split; [constructor | apply placeholder_free_empty].
  - destruct (Template.match_at (String c s)) as [[name rest]|] eqn:Hm.
    + apply match_at_inv in Hm as [Hid E].
      destruct (IH (String.length rest)) with (s := rest)
        as (segs & tail & E' & Hs & Ht); [|reflexivity|].
      { rewrite Hn, E, length_append. unfold placeholder. simpl. lia. }
      exists ((EmptyString, name) :: segs), tail. repeat split.
      * simpl. now rewrite <- E'.
      * constructor; [|exact Hs].
        split; [apply placeholder_free_empty | exact Hid].
      * exact Ht.
    + destruct (IH (String.length s)) with (s := s)
        as (segs & tail & E' & Hs & Ht); [simpl in Hn; lia | reflexivity |].
      destruct segs as [|[l name] segs].
      * exists [], (String c tail). simpl in *. subst s. repeat split.
        -- constructor.
        -- now apply placeholder_free_cons.
      * exists ((String c l, name) :: segs), tail.
        rewrite template_of_cons in E'. subst s.
        inversion Hs as [|? ? [Hl Hid] Hs']; subst.
        repeat split.
        -- constructor; [|exact Hs']. split; [|exact Hid].
           intros pre nm post Hnm E. destruct pre as [|d pre].
           ++ change (EmptyString ++ placeholder nm ++ post)
                with (placeholder nm ++ post) in E.
              change (fst (String c l, name)) with (String c l) in E.
              change (String c (l ++ placeholder name ++ template_of segs tail))
                with (String c l ++ placeholder name ++ template_of segs tail)
                in Hm.
              rewrite E, append_assoc in Hm.
              rewrite (match_at_placeholder _ _ Hnm) in Hm. discriminate.
           ++ simpl in E. injection E as _ E. exact (Hl pre nm post Hnm E).
        -- exact Ht.
Qed.

(** ** C3 *)

(** C3.  Every template string is literal text and placeholders in turn.
    When the string is not one placeholder alone and every placeholder
    names a slot, [render_template] returns the same text with [str] of
    the slot value in place of each placeholder, from left to right, the
    literal text as it was; the slots and their sizes do not change, and
    the use count of each slot grows by the number of placeholders that
    name it. *)
Theorem C3_interpolation :
  (forall s : string,
      exists segs tail,
        s = template_of segs tail
        /\ Forall (fun seg => placeholder_free (fst seg)
                              /\ identifier (snd seg) = true) segs
        /\ placeholder_free tail)
  /\ (forall (ops : list cb_op) (segs : list (string * string)) (tail : string),
         Forall (fun seg => placeholder_free (fst seg)
                            /\ identifier (snd seg) = true
                            /\ Clipboard.has (snd seg) (clipboard_after ops) = true)
                segs ->
         placeholder_free tail ->
         Template.fullmatch (PyStr.strip (template_of segs tail)) = None ->
         exists cb',
           Template.render_template (VStr (template_of segs tail))
                                    (clipboard_after ops)
           = (Ok (VStr (expansion (_slots (clipboard_after ops)) segs tail)), cb')
           /\ _slots cb' = _slots (clipboard_after ops)
           /\ _bytes_stored cb' = _bytes_stored (clipboard_after ops)
           /\ forall name,
                use_count cb' name
                = (use_count (clipboard_after ops) name
                   + occurrences (map snd segs) name)%Z).
Proof.
  split; [exact template_decomposes|].
  intros ops segs tail Hsegs Htail Hfull.
  set (cb := clipboard_after ops) in *.
  assert (Hsegs' : Forall (fun seg => placeholder_free (fst seg)
                                      /\ identifier (snd seg) = true) segs).
  { eapply Forall_impl; [|exact Hsegs]. intros seg (H1 & H2 & _). now split. }
  assert (Hknown : forall n, In n (map snd segs) ->
                             Dict.contains (_slots cb) n = true).
  { intros n Hin. apply in_map_iff in Hin as (seg & <- & Hin).
    rewrite Forall_forall in Hsegs. now destruct (Hsegs seg Hin) as (_ & _ & H). }
  destruct (scan_template_of segs tail Hsegs' Htail) as [Hnames Htext].
  assert (Hnone : first_unknown (_slots cb) (map snd segs) = None).
  { clear - Hknown. induction (map snd segs) as [|n ns IH]; simpl; [reflexivity|].
    rewrite (Hknown n) by now left. apply IH. intros m Hm. apply Hknown. now right. }
  exists (record_all (map snd segs) cb).
  destruct (record_all_slots (map snd segs) cb) as [E1 E2].
  split; [|split; [exact E1 | split; [exact E2|]]].
  - simpl. unfold Template.render_str. rewrite Hfull.
    pose proof (runs_map _ VStr _ _
                  (runs_sub (Template.scan 0 (template_of segs tail))) cb) as R.
    rewrite R, Hnames, Hnone, (known_prefix_all _ _ Hnone), Htext.
    reflexivity.
  - apply use_count_record_all; [apply cb_inv_after | exact Hknown].
Qed.

(** With slot [data] holding 42, ["n={{data}}"] renders to ["n=42"]. *)
Lemma C3_witness :
  exists cb',
    Template.render_template (VStr "n={{data}}")
                             (clipboard_after [OpSet "data" (VInt 42)])
    = (Ok (VStr "n=42"), cb')
    /\ use_count cb' "data" = 1%Z.
Proof.
  destruct C3_interpolation as [_ H].
  destruct (H [OpSet "data" (VInt 42)] [("n=", "data")] "")
    as (cb' & Hr & _ & _ & Hc).
  - repeat constructor; now apply free_b_sound.
  - now apply free_b_sound.
  - reflexivity.
  - exists cb'. split; [exact Hr | exact (Hc "data")].
Defined.

(** The same placeholder twice counts twice; braces that form no
    placeholder stay as they are. *)
Example interpolation_repeated :
  Template.render_template (VStr "{{{data}}} {{b{{data}} {{}}")
                           (clipboard_after [OpSet "data" (VInt 42)])
  = (Ok (VStr "{42} {{b42 {{}}"),
     mkClipboard [("data", VInt 42)] [("data", 2%Z)] [("data", 2%Z)]).
Proof. reflexivity. Qed.

(** * More properties of the code *)

(** ** [ClipboardState]: slots *)

Lemma in_keys_pop {V : Type} (d : Dict.t V) k x :
  In x (Dict.keys (Dict.pop d k)) -> In x (Dict.keys d).
Proof.
  unfold Dict.keys. induction d as [|[k0 v0] d IH]; simpl; [tauto|].
  destruct (String.eqb k0 k); simpl; [tauto|]. intros [H|H]; auto.
Qed.

Lemma nodup_keys_pop {V : Type} (d : Dict.t V) k :
  NoDup (Dict.keys d) -> NoDup (Dict.keys (Dict.pop d k)).
Proof.
  induction d as [|[k0 v0] d IH]; simpl; intros H; [constructor|].
  inversion H as [|? ? Hn Hd]; subst.
  destruct (String.eqb k0 k); simpl; [assumption|].
  constructor; [|now apply IH].
  intros Hin. apply Hn. now apply in_keys_pop in Hin.
Qed.

Lemma get_pop_other {V : Type} (d : Dict.t V) k x :
  k <> x -> Dict.get (Dict.pop d k) x = Dict.get d x.
Proof.
  intros N. induction d as [|[k0 v0] d IH]; simpl; [reflexivity|].
  destruct (String.eqb_spec k0 k) as [->|N0]; simpl.
  - destruct (String.eqb_spec k x); [contradiction | reflexivity].
  - now rewrite IH.
Qed.

Lemma get_pop_same {V : Type} (d : Dict.t V) k :
  NoDup (Dict.keys d) -> Dict.get (Dict.pop d k) k = None.
Proof.
  induction d as [|[k0 v0] d IH]; simpl; intros H; [reflexivity|].
  inversion H as [|? ? Hn Hd]; subst.
  destruct (String.eqb_spec k0 k) as [->|N0]; simpl.
  - destruct (Dict.get d k) eqn:G; [|reflexivity].
    exfalso. apply Hn. apply get_in_keys. now rewrite G.
  - destruct (String.eqb_spec k0 k); [contradiction | now apply IH].
Qed.

Lemma filter_absent (k : string) (xs : list string) :
  ~ In k xs -> filter (fun x => negb (String.eqb x k)) xs = xs.
Proof.
  induction xs as [|x xs IH]; simpl; intros H; [reflexivity|].
  destruct (String.eqb_spec x k) as [->|N]; simpl.
  - exfalso. apply H. now left.
  - f_equal. apply IH. intros Hin. apply H. now right.
Qed.

Lemma keys_pop {V : Type} (d : Dict.t V) k :
  NoDup (Dict.keys d) ->
  Dict.keys (Dict.pop d k)
  = filter (fun x => negb (String.eqb x k)) (Dict.keys d).
Proof.
  unfold Dict.keys. induction d as [|[k0 v0] d IH]; simpl; intros H;
    [reflexivity|].
  inversion H as [|? ? Hn Hd]; subst.
  destruct (String.eqb_spec k0 k) as [->|N0]; simpl.
  - symmetry. now apply filter_absent.
  - f_equal. now apply IH.
Qed.

Lemma slots_nodup_fold ops cb :
  NoDup (Dict.keys (_slots cb)) ->
  NoDup (Dict.keys (_slots (fold_left apply_op ops cb))).
Proof.
  revert cb. induction ops as [|op ops IH]; simpl; intros cb H; [exact H|].
  apply IH. destruct op as [slot v|[[|c s]|]|slot]; simpl.
  - now apply nodup_keys_setitem.
  - constructor.
  - now apply nodup_keys_pop.
  - constructor.
  - unfold Clipboard.record_usage.
    now destruct (Dict.get (_usage_count cb) slot).
Qed.

(** The slots of a clipboard of a session have distinct names. *)
Lemma slots_nodup ops : NoDup (Dict.keys (_slots (clipboard_after ops))).
Proof. apply slots_nodup_fold. constructor. Qed.

(** X1.  After [set(slot, v)], [get(slot)] returns [v], [has(slot)] holds,
    the use count of the slot is 0 and its size is the length of
    [str(v)]; the value, count and size of every other name are as
    before. *)
Theorem set_then_get :
  forall (slot : string) (v : value) (cb : ClipboardState),
    let cb' := Clipboard.set slot v cb in
    Clipboard.get slot cb' = Ok v
    /\ Clipboard.has slot cb' = true
    /\ use_count cb' slot = 0%Z
    /\ byte_size cb' slot = PyStr.len (py_str v)
    /\ forall other, other <> slot ->
         Dict.get (_slots cb') other = Dict.get (_slots cb) other
         /\ use_count cb' other = use_count cb other
         /\ byte_size cb' other = byte_size cb other.
Proof.
  intros slot v cb cb'.
  unfold Clipboard.get, Clipboard.has, Dict.contains, use_count, byte_size,
    Dict.get_default, cb'. simpl.
  rewrite !get_setitem_same.
  repeat split; try reflexivity.
  - now destruct v.
  - now apply get_setitem_other, not_eq_sym.
  - rewrite get_setitem_other; [reflexivity | now apply not_eq_sym].
  - rewrite get_setitem_other; [reflexivity | now apply not_eq_sym].
Qed.

Lemma set_then_get_witness :
  Clipboard.get "b" (Clipboard.set "b" (VInt 7)
                       (Clipboard.set "a" (VStr "text") Clipboard.init))
  = Ok (VInt 7)
  /\ Dict.get (_slots (Clipboard.set "b" (VInt 7)
                         (Clipboard.set "a" (VStr "text") Clipboard.init))) "a"
     = Some (VStr "text").
Proof.
  destruct (set_then_get "b" (VInt 7)
              (Clipboard.set "a" (VStr "text") Clipboard.init))
    as (H1 & _ & _ & _ & H2).
  split; [exact H1|].
  destruct (H2 "a") as (H3 & _); [discriminate|]. exact H3.
Defined.

(** X2.  In a session, [clear(slot)] with a name that is not empty takes
    that slot away and no other: [has(slot)] fails afterwards, every other
    name has the value it had, and [list_slots] is the former list without
    the name.  [clear()] and [clear("")] both take every slot away. *)
Theorem clear_removes :
  forall (ops : list cb_op) (c : ascii) (s : string),
    let cb := clipboard_after ops in
    let slot := String c s in
    Clipboard.has slot (Clipboard.clear (Some slot) cb) = false
    /\ (forall other, other <> slot ->
          Dict.get (_slots (Clipboard.clear (Some slot) cb)) other
          = Dict.get (_slots cb) other)
    /\ Clipboard.list_slots (Clipboard.clear (Some slot) cb)
       = filter (fun x => negb (String.eqb x slot)) (Clipboard.list_slots cb)
    /\ Clipboard.list_slots (Clipboard.clear None cb) = []
    /\ Clipboard.list_slots (Clipboard.clear (Some EmptyString) cb) = [].
Proof.
  intros ops c s cb slot. pose proof (slots_nodup ops) as Hn. fold cb in Hn.
  unfold Clipboard.has, Dict.contains, Clipboard.list_slots. simpl.
  repeat split.
  - fold slot. now rewrite get_pop_same.
  - intros other N. apply get_pop_other. now apply not_eq_sym.
  - now apply keys_pop.
Qed.

Lemma clear_removes_witness :
  Dict.get (_slots (Clipboard.clear (Some "a")
                      (clipboard_after [OpSet "a" (VInt 1); OpSet "b" (VInt 2)])))
           "b"
  = Some (VInt 2).
Proof.
  destruct (clear_removes [OpSet "a" (VInt 1); OpSet "b" (VInt 2)] "a"%char "")
    as (_ & H & _).
  rewrite (H "b"); [reflexivity | discriminate].
Defined.



Lemma usage_keys_set_fold ops cb k :
  In k (Dict.keys (_usage_count (fold_left apply_op ops cb))) ->
  In k (Dict.keys (_usage_count cb)) \/ existsb (sets_slot k) ops = true.
Proof.
  revert cb. induction ops as [|op ops IH]; simpl; intros cb H; [now left|].
  destruct (IH _ H) as [Hin|Hex]; [|right; now rewrite Hex, orb_true_r].
  destruct op as [slot v|slot|slot]; simpl in *.
  - apply in_keys_setitem in Hin as [->|Hin]; [|now left].
    right. now rewrite String.eqb_refl.
  - left. now destruct slot as [[|c s]|].
  - left. unfold Clipboard.record_usage in Hin.
    destruct (Dict.get (_usage_count cb) slot) eqn:G; simpl in Hin;
      [|assumption].
    apply in_keys_setitem in Hin as [->|Hin]; [|assumption].
    apply get_in_keys. now rewrite G.
Qed.

(** X4.  In a session, [record_usage] of a name that was never set
    changes nothing, and raises nothing. *)
Theorem record_usage_never_set :
  forall (ops : list cb_op) (slot : string),
    existsb (sets_slot slot) ops = false ->
    Clipboard.record_usage slot (clipboard_after ops) = clipboard_after ops.
Proof.
  intros ops slot H. unfold Clipboard.record_usage.
  destruct (Dict.get (_usage_count (clipboard_after ops)) slot) eqn:G;
    [|reflexivity].
  assert (Hin : In slot (Dict.keys (_usage_count (clipboard_after ops))))
    by (apply get_in_keys; now rewrite G).
  apply usage_keys_set_fold in Hin as [[]|Hex]. congruence.
Qed.

Lemma record_usage_never_set_witness :
  Clipboard.record_usage "ghost" (clipboard_after [OpSet "a" (VInt 1)])
  = clipboard_after [OpSet "a" (VInt 1)].
Proof. apply record_usage_never_set. reflexivity. Defined.

(** ** [ClipboardState]: the estimate *)

Lemma sum_over_ext names f g :
  (forall s, In s names -> g s = f s) -> sum_over names g = sum_over names f.
Proof.
  unfold sum_over. induction names as [|s names IH]; simpl; intros H;
    [reflexivity|].
  rewrite (H s) by now left. rewrite IH; [reflexivity|].
  intros x Hx. apply H. now right.
Qed.

Lemma sum_over_update names f g slot d :
  NoDup names -> In slot names ->
  g slot = (f slot + d)%Z ->
  (forall other, other <> slot -> g other = f other) ->
  sum_over names g = (sum_over names f + d)%Z.
Proof.
  intros Hn Hin Hs Ho. induction names as [|s names IH]; [contradiction|].
  inversion Hn as [|? ? Hnot Hn']; subst.
  change (sum_over (s :: names) g) with (g s + sum_over names g)%Z.
  change (sum_over (s :: names) f) with (f s + sum_over names f)%Z.
  destruct Hin as [->|Hin].
  - rewrite Hs, (sum_over_ext names f g); [lia|].
    intros x Hx. apply Ho. intros ->. contradiction.
  - rewrite (Ho s), (IH Hn' Hin); [lia|]. intros ->. contradiction.
Qed.

(** X5.  In a session, one more recorded usage of a slot adds the size
    of the slot to [bytes_substituted] and leaves [bytes_stored] as it
    is. *)
Theorem usage_adds_byte_size :
  forall (ops : list cb_op) (slot : string),
    let cb := clipboard_after ops in
    let before := Clipboard.get_token_savings_estimate cb in
    let after :=
      Clipboard.get_token_savings_estimate (Clipboard.record_usage slot cb) in
    Clipboard.has slot cb = true ->
    Clipboard.bytes_substituted after
    = (Clipboard.bytes_substituted before + byte_size cb slot)%Z
    /\ Clipboard.bytes_stored after = Clipboard.bytes_stored before.
Proof.
  intros ops slot cb before after Hhas.
  pose proof (cb_inv_after ops) as I. fold cb in I.
  assert (Hs : Dict.get (_slots cb) slot <> None).
  { unfold Clipboard.has, Dict.contains in Hhas.
    destruct (Dict.get (_slots cb) slot); [discriminate | discriminate]. }
  pose proof (inv_tracked _ I _ Hs) as Ht.
  destruct (Dict.get (_usage_count cb) slot) as [n|] eqn:G; [|contradiction].
  destruct (record_usage_effect slot cb I Hs) as (_ & Eb & E1 & E2).
  unfold after, before.
  rewrite (bytes_substituted_sum _ (cb_inv_record_usage slot cb I)).
  rewrite (bytes_substituted_sum _ I).
  split.
  - assert (Ek : Dict.keys (_usage_count (Clipboard.record_usage slot cb))
                 = Dict.keys (_usage_count cb)).
    { rewrite (record_usage_known _ _ _ G). simpl.
      apply keys_setitem_present. now rewrite G. }
    rewrite Ek.
    rewrite (sum_over_update _ (fun s => byte_size cb s * use_count cb s)%Z
               _ slot (byte_size cb slot)).
    + reflexivity.
    + apply (inv_nodup _ I).
    + apply get_in_keys. now rewrite G.
    + unfold byte_size at 1. rewrite Eb. fold (byte_size cb slot).
      rewrite E1. lia.
    + intros other N. unfold byte_size at 1. rewrite Eb.
      fold (byte_size cb other). now rewrite (E2 other N).
  - simpl. now rewrite Eb.
Qed.

Lemma usage_adds_byte_size_witness :
  Clipboard.bytes_substituted
    (Clipboard.get_token_savings_estimate
       (Clipboard.record_usage "a" (clipboard_after [OpSet "a" (VStr "hello")])))
  = (Clipboard.bytes_substituted
       (Clipboard.get_token_savings_estimate
          (clipboard_after [OpSet "a" (VStr "hello")]))
     + byte_size (clipboard_after [OpSet "a" (VStr "hello")]) "a")%Z.
Proof.
  apply (usage_adds_byte_size [OpSet "a" (VStr "hello")] "a"). reflexivity.
Defined.

(** ** [ToolResultStore] *)

Lemma entries_of_app t calls more :
  entries_of t (calls ++ more)
  = (entries_of t calls ++ entries_of t more)%list.
Proof. unfold entries_of. now rewrite filter_app, map_app. Qed.

(** X6.  Once [name:i] resolves to an entry, it resolves to the same
    entry after any further [store] calls, under that name or another:
    the ordinals do not move. *)
Theorem ordinals_stable :
  forall (calls more : list (string * value)) (t : string) (i : nat) (e : entry),
    Store.get (indexed_ref t i) (store_after calls) = Ok e ->
    Store.get (indexed_ref t i) (store_after (calls ++ more)) = Ok e.
Proof.
  intros calls more t i e H.
  rewrite get_indexed, by_tool_after in *.
  rewrite entries_of_app.
  destruct (entries_of t calls) as [|e0 es] eqn:E; [discriminate|].
  destruct (nth_error (e0 :: es) i) as [x|] eqn:N; [|discriminate].
  injection H as <-.
  assert (Hi : i < length (e0 :: es)) by (apply nth_error_Some; congruence).
  simpl app. cbv iota.
  change (e0 :: (es ++ entries_of t more)%list)
    with ((e0 :: es) ++ entries_of t more)%list.
  rewrite nth_error_app1 by exact Hi. rewrite N. reflexivity.
Qed.

Lemma ordinals_stable_witness :
  Store.get "read_file:0"
    (store_after ([("read_file", VStr "one")]
                  ++ [("http_request", VNone); ("read_file", VStr "two")]))
  = Ok (mkEntry "read_file" (VStr "one")).
Proof.
  apply (ordinals_stable [("read_file", VStr "one")]
           [("http_request", VNone); ("read_file", VStr "two")]
           "read_file" 0).
  reflexivity.
Defined.

Lemma by_tool_nodup calls : NoDup (Dict.keys (_by_tool (store_after calls))).
Proof.
  induction calls as [|c calls IH] using rev_ind; [constructor|].
  rewrite store_after_snoc. unfold Store.stored. simpl.
  apply nodup_keys_setitem.
  destruct (Dict.contains (_by_tool (store_after calls)) (fst c));
    [assumption | now apply nodup_keys_setitem].
Qed.

Lemma sum_len_append_entry (d : Dict.t (list entry)) k e :
  fold_right (fun tr acc => length (snd tr) + acc) 0
             (Dict.setitem d k (Dict.get_default d k [] ++ [e])%list)
  = S (fold_right (fun tr acc => length (snd tr) + acc) 0 d).
Proof.
  unfold Dict.get_default. induction d as [|[k0 v0] d IH]; simpl.
  - reflexivity.
  - destruct (String.eqb k0 k) eqn:E; simpl.
    + rewrite length_app. simpl. lia.
    + rewrite IH. lia.
Qed.

Lemma sum_len_new_name (d : Dict.t (list entry)) k :
  fold_right (fun tr acc => length (snd tr) + acc) 0 (Dict.setitem d k [])
  <= fold_right (fun tr acc => length (snd tr) + acc) 0 d
  /\ (Dict.get d k = None ->
      fold_right (fun tr acc => length (snd tr) + acc) 0 (Dict.setitem d k [])
      = fold_right (fun tr acc => length (snd tr) + acc) 0 d).
Proof.
  induction d as [|[k0 v0] d [IH1 IH2]]; simpl.
  - split; [lia | reflexivity].
  - destruct (String.eqb k0 k) eqn:E; simpl.
    + split; [lia | discriminate].
    + split; [lia|]. intros H. rewrite (IH2 H). reflexivity.
Qed.

Lemma total_results_stored t r st :
  total_results (Store.stored t r st) = S (total_results st).
Proof.
  unfold total_results, Store.stored. simpl.
  rewrite sum_len_append_entry. f_equal.
  unfold Dict.contains.
  destruct (Dict.get (_by_tool st) t) eqn:G; [reflexivity|].
  now apply sum_len_new_name.
Qed.

Lemma length_list_sources st :
  length (Store.list_sources st) = total_results st.
Proof.
  unfold Store.list_sources, total_results, Dict.items.
  match goal with |- context [flat_map ?g _] => set (f := g) end.
  induction (_by_tool st) as [|[t results] d IH]; simpl; [reflexivity|].
  rewrite length_app, IH. f_equal. unfold f. simpl.
  destruct (Nat.eqb_spec (length results) 1) as [E|N].
  - now rewrite E.
  - now rewrite length_map, length_seq.
Qed.

Lemma in_list_sources st src :
  In src (Store.list_sources st) ->
  exists t results,
    In (t, results) (_by_tool st)
    /\ ((src = t /\ length results = 1)
        \/ exists i, i < length results /\ src = indexed_ref t i).
Proof.
  unfold Store.list_sources, Dict.items. intros H.
  apply in_flat_map in H as ([t results] & Hin & H). simpl in H.
  exists t, results. split; [exact Hin|].
  destruct (Nat.eqb_spec (length results) 1) as [E|N].
  - left. destruct H as [<-|[]]. now split.
  - right. apply in_map_iff in H as (i & <- & Hi).
    apply in_seq in Hi. exists i. split; [lia | reflexivity].
Qed.

Lemma entries_of_nonempty t calls :
  entries_of t calls <> [] -> exists c, In c calls /\ fst c = t.
Proof.
  unfold entries_of. intros H.
  destruct (filter (fun c => String.eqb (fst c) t) calls) as [|c l] eqn:F;
    [now elim H|].
  assert (Hin : In c (filter (fun c => String.eqb (fst c) t) calls))
    by (rewrite F; now left).
  apply filter_In in Hin as [Hin Hc]. exists c. split; [exact Hin|].
  now apply String.eqb_eq.
Qed.

(** X7.  [list_sources] gives one reference for each result stored, and
    each of them resolves when no tool name is ["last"] or has a
    colon. *)
Theorem list_sources_resolve :
  forall (calls : list (string * value)),
    length (Store.list_sources (store_after calls)) = length calls
    /\ ((forall c, In c calls -> plain_name (fst c) = true) ->
        forall src, In src (Store.list_sources (store_after calls)) ->
                    exists e, Store.get src (store_after calls) = Ok e).
Proof.
  intros calls. split.
  - rewrite length_list_sources.
    induction calls as [|c calls IH] using rev_ind; [reflexivity|].
    rewrite store_after_snoc, total_results_stored, IH, length_app.
    simpl. lia.
  - intros Hplain src Hsrc.
    apply in_list_sources in Hsrc as (t & results & Hin & Hsrc).
    pose proof (in_get_nodup _ _ _ (by_tool_nodup calls) Hin) as G.
    destruct Hsrc as [[-> Hlen]|(i & Hi & ->)].
    + pose proof G as G'. rewrite by_tool_after in G'.
      assert (Hne : entries_of t calls <> [])
        by (destruct (entries_of t calls); [discriminate | discriminate]).
      destruct (entries_of_nonempty _ _ Hne) as (c & Hc & <-).
      specialize (Hplain c Hc). unfold plain_name in Hplain.
      apply andb_true_iff in Hplain as [Hl Hcol].
      apply negb_true_iff in Hl, Hcol.
      unfold Store.get. rewrite Hl, (rsplit1_none Store.colon _ Hcol).
      simpl. rewrite G.
      destruct results as [|e results]; [discriminate|].
      rewrite (list_index_minus_one (e :: results) e) by discriminate.
      eexists. reflexivity.
    + rewrite get_indexed, G.
      destruct (nth_error results i) as [e|] eqn:N; [eexists; reflexivity|].
      apply nth_error_None in N. lia.
Qed.

Lemma list_sources_resolve_witness :
  exists e,
    Store.get "read_file:1"
      (store_after [("read_file", VStr "one"); ("read_file", VStr "two")])
    = Ok e.
Proof.
  destruct (list_sources_resolve
              [("read_file", VStr "one"); ("read_file", VStr "two")])
    as [_ H].
  apply H.
  - intros c [<-|[<-|[]]]; reflexivity.
  - right. now left.
Defined.

Lemma uint_of_digit_char c d :
  PyStr.is_ascii_digit c = true -> uint_of_char c (Some d) <> None.
Proof.
  destruct c as [[] [] [] [] [] [] [] []]; vm_compute; congruence.
Qed.

Lemma uint_of_digits s :
  PyStr.all PyStr.is_ascii_digit s = true -> NilEmpty.uint_of_string s <> None.
Proof.
  induction s as [|c s IH]; simpl; [discriminate|].
  intros H. apply andb_true_iff in H as [Hc Hs].
  destruct (NilEmpty.uint_of_string s) as [d|]; [|now elim (IH Hs)].
  now apply uint_of_digit_char.
Qed.

(** X8.  On a reference of at most 4300 characters, which keeps its
    index under the digit limit of [int], [ToolResultStore.get] raises
    [KeyError] and nothing else, but for one case: an index that [isdigit]
    accepts and [int] does not (a superscript digit) lets the [ValueError]
    of [int] through. *)
Theorem store_get_raises :
  forall (source : string) (st : ToolResultStore) (e : exn),
    String.length source <= 4300 ->
    Store.get source st = Raise e ->
    (exists msg, e = KeyError msg)
    \/ (exists name idx_str,
          PyStr.rsplit1 ":"%char source = Some (name, idx_str)
          /\ PyStr.isdigit idx_str = true
          /\ PyStr.all PyStr.is_ascii_digit idx_str = false
          /\ e = ValueError ("invalid literal for int() with base 10: "
                             ++ PyStr.repr idx_str)).
Proof.
  intros source st e _. unfold Store.get.
  destruct (String.eqb source "last").
  { destruct (_last st); [discriminate|]. intros [= <-]. left. eauto. }
  change Store.colon with ":"%char.
  destruct (PyStr.rsplit1 ":"%char source) as [[name idx_str]|].
  - destruct (PyStr.isdigit idx_str) eqn:Hd.
    + destruct (PyStr.to_int idx_str) as [idx|] eqn:Hi; simpl.
      * destruct (Dict.get (_by_tool st) name) as [results|];
          [|intros [= <-]; left; eauto].
        destruct (list_index results idx); [discriminate|].
        intros [= <-]. left. eauto.
      * intros [= <-]. right. exists name, idx_str.
        split; [reflexivity|]. split; [exact Hd|]. split; [|reflexivity].
        unfold PyStr.to_int in Hi.
        unfold PyStr.isdigit in Hd. apply andb_true_iff in Hd as [Hn _].
        rewrite Hn in Hi. simpl in Hi.
        destruct (PyStr.all PyStr.is_ascii_digit idx_str) eqn:Ha;
          [|reflexivity].
        pose proof (uint_of_digits _ Ha) as Hu.
        destruct (NilEmpty.uint_of_string idx_str);
          [discriminate | now elim Hu].
    + simpl. intros [= <-]. left. eauto.
  - simpl. destruct (Dict.get (_by_tool st) source) as [results|];
      [|intros [= <-]; left; eauto].
    destruct (list_index results (-1)); [discriminate|].
    intros [= <-]. left. eauto.
Qed.

Lemma store_get_raises_witness :
  (exists msg,
      ValueError ("invalid literal for int() with base 10: "
                  ++ PyStr.repr (String (ascii_of_nat 178) ""))
      = KeyError msg)
  \/ (exists name idx_str,
        PyStr.rsplit1 ":"%char
                      (String "t" (String ":" (String (ascii_of_nat 178) "")))
        = Some (name, idx_str)
        /\ PyStr.isdigit idx_str = true
        /\ PyStr.all PyStr.is_ascii_digit idx_str = false
        /\ ValueError ("invalid literal for int() with base 10: "
                       ++ PyStr.repr (String (ascii_of_nat 178) ""))
           = ValueError ("invalid literal for int() with base 10: "
                         ++ PyStr.repr idx_str)).
Proof.
  apply (store_get_raises
           (String "t" (String ":" (String (ascii_of_nat 178) "")))
           (store_after [("t", VNone)])).
  - simpl. lia.
  - reflexivity.
Defined.

(** ** The extractor: lines *)

Lemma split_nonempty sep s : PyStr.split sep s <> [].
Proof.
  destruct s as [|c s]; simpl; [discriminate|].
  destruct (Ascii.eqb c sep); [discriminate|].
  destruct (PyStr.split sep s); discriminate.
Qed.

(** Joining the pieces of a split with the separator gives the text
    back. *)
Lemma join_split sep s :
  PyStr.join (String sep "") (PyStr.split sep s) = s.
Proof.
  unfold PyStr.join. induction s as [|c s IH]; simpl; [reflexivity|].
  pose proof (split_nonempty sep s) as Hne.
  destruct (Ascii.eqb_spec c sep) as [->|N].
  - destruct (PyStr.split sep s) as [|h t]; [now elim Hne|].
    simpl in *. now rewrite IH.
  - destruct (PyStr.split sep s) as [|h t]; [now elim Hne|].
    destruct t as [|h' t]; simpl in *; now rewrite <- IH.
Qed.

Lemma list_slice_nat {A : Type} (xs : list A) (a b : nat) :
  a <= length xs -> b <= length xs ->
  list_slice xs (Z.of_nat a) (Z.of_nat b) = firstn (b - a) (skipn a xs).
Proof.
  intros Ha Hb. unfold list_slice. cbv zeta.
  assert (E1 : (Z.of_nat a <? 0)%Z = false) by (apply Z.ltb_ge; lia).
  assert (E2 : (Z.of_nat b <? 0)%Z = false) by (apply Z.ltb_ge; lia).
  rewrite E1, E2.
  rewrite !Z.min_l by lia.
  f_equal; [lia | f_equal; lia].
Qed.

(** X9.  A range that covers every line gives the whole text back,
    wherever it starts at or before line 1 and ends at or after the last
    line. *)
Theorem extract_all_lines :
  forall (text : string) (start end_ : Z),
    (start <= 1)%Z ->
    (Z.of_nat (length (lines_of text)) <= end_)%Z ->
    _extract_by_lines text start end_ = text.
Proof.
  intros text start end_ Hs He. unfold _extract_by_lines. cbv zeta.
  fold (lines_of text) in *.
  rewrite Z.max_l by lia. rewrite Z.min_l by lia.
  change 0%Z with (Z.of_nat 0).
  rewrite (list_slice_nat (lines_of text) 0 (length (lines_of text)))
    by lia.
  rewrite Nat.sub_0_r. simpl skipn. rewrite firstn_all.
  apply join_split.
Qed.

Lemma extract_all_lines_witness :
  _extract_by_lines (String "a" (String newline "b")) (-3) 99
  = String "a" (String newline "b").
Proof.
  apply extract_all_lines; [lia | simpl; lia].
Defined.

Lemma firstn_one_skipn {A : Type} (xs : list A) (i : nat) (x : A) :
  nth_error xs i = Some x -> firstn 1 (skipn i xs) = [x].
Proof.
  revert xs. induction i as [|i IH]; intros [|y xs]; simpl; try discriminate.
  - now intros [= ->].
  - apply IH.
Qed.

(** X10.  The range from line [i + 1] to line [i + 1], lines counted
    from 1, is the line at position [i] of the text. *)
Theorem extract_one_line :
  forall (text line : string) (i : nat),
    nth_error (lines_of text) i = Some line ->
    _extract_by_lines text (Z.of_nat i + 1) (Z.of_nat i + 1) = line.
Proof.
  intros text line i H. unfold _extract_by_lines. cbv zeta.
  fold (lines_of text).
  assert (Hi : i < length (lines_of text))
    by (apply nth_error_Some; congruence).
  rewrite Z.max_r by lia. rewrite Z.min_r by lia.
  replace (Z.of_nat i + 1 - 1)%Z with (Z.of_nat i) by lia.
  replace (Z.of_nat i + 1)%Z with (Z.of_nat (S i)) by lia.
  rewrite list_slice_nat by lia.
  replace (S i - i) with 1 by lia.
  now rewrite (firstn_one_skipn _ _ _ H).
Qed.

Lemma extract_one_line_witness :
  _extract_by_lines
    (String "a" (String newline (String "b" (String newline "c")))) 2 2
  = "b".
Proof.
  apply (extract_one_line
           (String "a" (String newline (String "b" (String newline "c"))))
           "b" 1).
  reflexivity.
Defined.

(** X11.  An end line below the start line gives the empty text when it
    is not negative.  A negative end line is not brought back to line 1:
    it counts from the end, so lines 1 to [-k] are all the lines but the
    last [k]. *)
Theorem extract_lines_low_end :
  forall (text : string),
    (forall start end_,
        (0 <= end_ < start)%Z -> _extract_by_lines text start end_ = "")
    /\ (forall start (k : nat),
          (start <= 1)%Z -> 0 < k ->
          _extract_by_lines text start (- Z.of_nat k)
          = PyStr.join (String newline "")
                       (firstn (length (lines_of text) - k) (lines_of text))).
Proof.
  intros text. split.
  - intros start end_ H. unfold _extract_by_lines, list_slice. cbv zeta.
    fold (lines_of text).
    set (n := Z.of_nat (length (lines_of text))).
    assert (Hn : (0 <= n)%Z) by (unfold n; lia).
    rewrite (Z.max_r 0 (start - 1)) by lia.
    assert (E1 : (start - 1 <? 0)%Z = false) by (apply Z.ltb_ge; lia).
    assert (E2 : (Z.min n end_ <? 0)%Z = false) by (apply Z.ltb_ge; lia).
    rewrite E1, E2.
    replace (Z.to_nat (Z.min (Z.min n end_) n - Z.min (start - 1) n)) with 0
      by lia.
    reflexivity.
  - intros start k Hs Hk. unfold _extract_by_lines, list_slice. cbv zeta.
    fold (lines_of text).
    set (n := Z.of_nat (length (lines_of text))).
    assert (Hn : (0 <= n)%Z) by (unfold n; lia).
    rewrite (Z.max_l 0 (start - 1)) by lia.
    rewrite (Z.min_r n (- Z.of_nat k)) by lia.
    assert (E1 : (0 <? 0)%Z = false) by reflexivity.
    assert (E2 : (- Z.of_nat k <? 0)%Z = true) by (apply Z.ltb_lt; lia).
    rewrite E1, E2. rewrite (Z.min_l 0 n) by lia.
    simpl skipn. f_equal. f_equal. unfold n. lia.
Qed.

Lemma extract_lines_low_end_witness :
  _extract_by_lines
    (String "a" (String newline (String "b" (String newline "c")))) 1 (-1)
  = String "a" (String newline "b").
Proof.
  destruct (extract_lines_low_end
              (String "a" (String newline (String "b" (String newline "c")))))
    as [_ H].
  change (-1)%Z with (- Z.of_nat 1)%Z.
  rewrite (H 1%Z 1); [reflexivity | lia | lia].
Defined.

(** ** The extractor: paths *)

Lemma split_app sep p q :
  PyStr.split sep (p ++ String sep q)
  = (PyStr.split sep p ++ PyStr.split sep q)%list.
Proof.
  induction p as [|c p IH]; simpl.
  - now rewrite Ascii.eqb_refl.
  - destruct (Ascii.eqb c sep); rewrite IH; [reflexivity|].
    pose proof (split_nonempty sep p) as Hne.
    destruct (PyStr.split sep p) as [|h t]; [now elim Hne | reflexivity].
Qed.

Lemma split_no_sep sep s :
  PyStr.contains_char sep s = false -> PyStr.split sep s = [s].
Proof.
  induction s as [|c s IH]; simpl; [reflexivity|].
  intros H. apply orb_false_iff in H as [Hc Hs].
  now rewrite Hc, (IH Hs).
Qed.

Lemma json_path_walk_app path a b r :
  json_path_walk path (a ++ b) r
  = (v <- json_path_walk path a r ;; json_path_walk path b v).
Proof.
  revert r. induction a as [|part a IH]; intros r; simpl; [reflexivity|].
  destruct (json_path_step path r part); simpl; [apply IH | reflexivity].
Qed.

(** The path is used in the messages only. *)
Lemma json_path_step_ok path1 path2 current part v :
  json_path_step path1 current part = Ok v ->
  json_path_step path2 current part = Ok v.
Proof.
  unfold json_path_step. destruct current; try discriminate.
  - destruct (PyStr.isdigit part); [|discriminate].
    destruct (PyStr.to_int part); [|discriminate].
    destruct (list_index l z); [auto | discriminate].
  - destruct (Dict.get d part); [auto | discriminate].
Qed.

Lemma json_path_walk_ok path1 path2 parts r v :
  json_path_walk path1 parts r = Ok v ->
  json_path_walk path2 parts r = Ok v.
Proof.
  revert r. induction parts as [|part parts IH]; intros r; simpl; [auto|].
  destruct (json_path_step path1 r part) as [x|] eqn:E; [|discriminate].
  rewrite (json_path_step_ok _ path2 _ _ _ E). simpl. apply IH.
Qed.

(** X12.  Paths compose: when [p] leads from a value to [v] and [q] leads
    from [v] to [w], the path [p.q] leads from the value to [w]. *)
Theorem json_path_compose :
  forall (r v w : value) (p q : string),
    _extract_by_json_path r p = Ok v ->
    _extract_by_json_path v q = Ok w ->
    _extract_by_json_path r (p ++ "." ++ q) = Ok w.
Proof.
  intros r v w p q Hp Hq. unfold _extract_by_json_path in *.
  change (p ++ "." ++ q) with (p ++ String "."%char q).
  rewrite split_app, json_path_walk_app.
  rewrite (json_path_walk_ok _ (p ++ String "."%char q) _ _ _ Hp). simpl.
  exact (json_path_walk_ok _ _ _ _ _ Hq).
Qed.

Lemma json_path_compose_witness :
  _extract_by_json_path
    (VDict [("request", VDict [("headers", VList [VStr "a"; VStr "b"])])])
    ("request.headers" ++ "." ++ "1")
  = Ok (VStr "b").
Proof.
  apply (json_path_compose _ (VList [VStr "a"; VStr "b"])); reflexivity.
Defined.

Lemma ascii_digit_not_dot c :
  PyStr.is_ascii_digit c = true -> Ascii.eqb c "."%char = false.
Proof.
  destruct c as [[] [] [] [] [] [] [] []]; vm_compute; congruence.
Qed.

Lemma all_digits_no_dot s :
  PyStr.all PyStr.is_ascii_digit s = true ->
  PyStr.contains_char "."%char s = false.
Proof.
  induction s as [|c s IH]; simpl; [reflexivity|].
  intros H. apply andb_true_iff in H as [Hc Hs].
  now rewrite (ascii_digit_not_dot _ Hc), IH.
Qed.

(** X13.  A key without a dot is a path to its value in a dictionary,
    and the decimal text of [i] is a path to the item at position [i] of a
    list. *)
Theorem json_path_lookup :
  (forall (d : Dict.t value) (k : string) (v : value),
      PyStr.contains_char "."%char k = false ->
      Dict.get d k = Some v ->
      _extract_by_json_path (VDict d) k = Ok v)
  /\ (forall (xs : list value) (i : nat) (x : value),
         nth_error xs i = Some x ->
         _extract_by_json_path (VList xs) (PyStr.of_int (Z.of_nat i)) = Ok x).
Proof.
  split.
  - intros d k v Hk Hg. unfold _extract_by_json_path.
    rewrite (split_no_sep _ _ Hk). simpl. now rewrite Hg.
  - intros xs i x Hn. unfold _extract_by_json_path.
    destruct (index_text i) as (Hd & Hi & _).
    destruct (of_int_of_nat i) as [E _].
    assert (Hdot : PyStr.contains_char "."%char (PyStr.of_int (Z.of_nat i))
                   = false).
    { rewrite E. apply all_digits_no_dot, digits_of_uint_all. }
    rewrite (split_no_sep _ _ Hdot). simpl.
    now rewrite Hd, Hi, list_index_nat, Hn.
Qed.

Lemma json_path_lookup_witness :
  _extract_by_json_path (VDict [("content", VStr "text")]) "content"
  = Ok (VStr "text")
  /\ _extract_by_json_path (VList [VInt 5; VInt 6; VInt 7])
                           (PyStr.of_int (Z.of_nat 2))
     = Ok (VInt 7).
Proof.
  destruct json_path_lookup as [H1 H2]. split.
  - apply H1; reflexivity.
  - apply H2. reflexivity.
Defined.

(** ** [_truncate] *)

Lemma length_take n s : String.length (PyStr.take n s) = Nat.min n (String.length s).
Proof.
  revert s. induction n as [|n IH]; intros [|c s]; simpl; auto.
Qed.

(** X14.  The text that [_truncate] returns has at most [max_len + 3]
    characters, and a text of at most [max_len] characters comes back as
    it is. *)
Theorem truncate_bound :
  forall (v : value) (max_len : nat),
    String.length (_truncate v max_len) <= max_len + 3
    /\ (String.length (text_of v) <= max_len ->
        _truncate v max_len = text_of v).
Proof.
  intros v max_len. unfold _truncate. fold (text_of v).
  destruct (Nat.ltb_spec max_len (String.length (text_of v))) as [H|H].
  - split; [|lia]. rewrite length_append, length_take. simpl. lia.
  - split; [lia | reflexivity].
Qed.

Lemma truncate_bound_witness :
  _truncate (VStr "short") 200 = "short".
Proof.
  destruct (truncate_bound (VStr "short") 200) as [_ H].
  apply H. simpl. lia.
Defined.

(** ** [execute_copy] *)



Lemma isspace_close_brace : PyStr.isspace "}"%char = false.
Proof. reflexivity. Qed.

Lemma rstrip_last a c :
  PyStr.isspace c = false ->
  PyStr.rstrip (a ++ String c "") = a ++ String c "".
Proof.
  intros H. induction a as [|x a IH]; simpl.
  - now rewrite H.
  - rewrite IH. destruct a; reflexivity.
Qed.

(** A placeholder has no white space to strip. *)
Lemma strip_placeholder name : PyStr.strip (placeholder name) = placeholder name.
Proof.
  unfold PyStr.strip.
  assert (E : PyStr.lstrip (placeholder name) = placeholder name)
    by reflexivity.
  rewrite E.
  replace (placeholder name) with (("{{" ++ name ++ "}") ++ String "}" "").
  - apply rstrip_last. reflexivity.
  - unfold placeholder. simpl. now rewrite append_assoc.
Qed.

Lemma clipboard_after_snoc ops op :
  clipboard_after (ops ++ [op]) = apply_op (clipboard_after ops) op.
Proof. unfold clipboard_after. now rewrite fold_left_app. Qed.

(** X16.  From a tool result to a tool argument without retyping: after
    a result with a text under ["content"] is stored, a copy of ["last"]
    into a slot with no extraction argument, and then the rendering of the
    placeholder of the slot, give that text; the one usage is counted. *)
Theorem copy_then_render :
  forall (re_search : string -> string -> result (option string))
         (ops : list cb_op) (calls : list (string * value))
         (t : string) (d : Dict.t value) (c slot : string),
    Dict.get d "content" = Some (VStr c) ->
    identifier slot = true ->
    exists ret cb1 cb2,
      execute_copy re_search (clipboard_after ops)
                   (store_after (calls ++ [(t, VDict d)]))
                   (VDict [("slot", VStr slot); ("source", VStr "last")])
      = (Ok ret, cb1)
      /\ getitem ret "method" = Ok (VStr "full content")
      /\ Template.render_template (VStr (placeholder slot)) cb1
         = (Ok (VStr c), cb2)
      /\ use_count cb2 slot = 1%Z.
Proof.
  intros re_search ops calls t d c slot Hc Hid.
  set (cb1 := clipboard_after (ops ++ [OpSet slot (VStr c)])).
  assert (Hcopy : execute_copy re_search (clipboard_after ops)
                    (store_after (calls ++ [(t, VDict d)]))
                    (VDict [("slot", VStr slot); ("source", VStr "last")])
                  = (Ok (VDict [("success", VBool true);
                                ("slot", VStr slot);
                                ("source", VStr "last");
                                ("method", VStr "full content");
                                ("bytes_extracted", VInt (PyStr.len c));
                                ("preview", VStr (_truncate (VStr c) 200))]),
                     cb1)).
  { unfold execute_copy. simpl getitem. simpl bind.
    unfold Store.get. simpl String.eqb. cbv iota.
    rewrite last_after_snoc. simpl bind.
    unfold extract. simpl Dict.contains. cbv iota. simpl andb. cbv iota.
    unfold _get_text_content. simpl snd. simpl result_of. rewrite Hc.
    simpl. unfold cb1. now rewrite clipboard_after_snoc. }
  pose proof (cb_inv_after (ops ++ [OpSet slot (VStr c)])) as I. fold cb1 in I.
  assert (Hget : Dict.get (_slots cb1) slot = Some (VStr c)).
  { unfold cb1. rewrite clipboard_after_snoc. simpl.
    apply get_setitem_same. }
  assert (H0 : use_count cb1 slot = 0%Z).
  { unfold cb1. rewrite clipboard_after_snoc. simpl.
    unfold use_count, Dict.get_default. simpl. now rewrite get_setitem_same. }
  destruct (record_usage_effect slot cb1 I) as (_ & _ & E & _);
    [now rewrite Hget|].
  eexists _, cb1, (Clipboard.record_usage slot cb1).
  split; [exact Hcopy|]. split; [reflexivity|]. split.
  - simpl. unfold Template.render_str.
    rewrite strip_placeholder, (fullmatch_placeholder _ Hid).
    unfold Clipboard.get. now rewrite Hget.
  - rewrite E, H0. reflexivity.
Qed.

Lemma copy_then_render_witness :
  exists ret cb1 cb2,
    execute_copy (fun _ _ => Ok None) (clipboard_after [])
                 (store_after ([] ++ [("read_file",
                                       VDict [("success", VBool true);
                                              ("content", VStr "line1")])]))
                 (VDict [("slot", VStr "code"); ("source", VStr "last")])
    = (Ok ret, cb1)
    /\ getitem ret "method" = Ok (VStr "full content")
    /\ Template.render_template (VStr (placeholder "code")) cb1
       = (Ok (VStr "line1"), cb2)
    /\ use_count cb2 "code" = 1%Z.
Proof.
  apply (copy_then_render (fun _ _ => Ok None) [] [] "read_file"
           [("success", VBool true); ("content", VStr "line1")]
           "line1" "code"); reflexivity.
Defined.

(** ** [render_template]: whole templates *)

Lemma scan_no_slots s :
  slots_of_pieces (Template.scan 0 s) = [] ->
  Template.scan 0 s = text_pieces s.
Proof.
  induction s as [|c s IH]; [reflexivity|].
  rewrite scan_start.
  destruct (Template.match_at (String c s)) as [[name rest]|]; simpl.
  - discriminate.
  - intros H. now rewrite IH.
Qed.

Lemma sub_text_pieces_run s cb :
  Template.sub (text_pieces s) cb = (Ok s, cb).
Proof.
  induction s as [|c s IH]; simpl; [reflexivity|].
  unfold bindM. now rewrite IH.
Qed.

Lemma render_str_no_slots s cb :
  slots_of_str s = [] -> Template.render_str s cb = (Ok (VStr s), cb).
Proof.
  unfold slots_of_str, Template.render_str.
  destruct (Template.fullmatch (PyStr.strip s)); [discriminate|].
  intros H. unfold bindM.
  now rewrite (scan_no_slots _ H), sub_text_pieces_run.
Qed.

Lemma app_nil_both {A : Type} (a b : list A) :
  (a ++ b)%list = [] -> a = [] /\ b = [].
Proof. destruct a; [auto | discriminate]. Qed.

Lemma render_list_same (f : value -> M value) xs cb :
  Forall (fun x => slots_of x = [] -> forall cb, f x cb = (Ok x, cb)) xs ->
  flat_map slots_of xs = [] ->
  Template.render_list f xs cb = (Ok xs, cb).
Proof.
  induction 1 as [|x xs Hx _ IH]; simpl; intros H; [reflexivity|].
  apply app_nil_both in H as [H1 H2].
  unfold bindM. rewrite (Hx H1), (IH H2). reflexivity.
Qed.

Lemma render_items_same (f : value -> M value) kvs cb :
  Forall (fun kv => slots_of (snd kv) = [] ->
                    forall cb, f (snd kv) cb = (Ok (snd kv), cb)) kvs ->
  flat_map (fun kv => slots_of (snd kv)) kvs = [] ->
  Template.render_items f kvs cb = (Ok kvs, cb).
Proof.
  induction 1 as [|[k v] kvs Hx _ IH]; simpl; intros H; [reflexivity|].
  apply app_nil_both in H as [H1 H2].
  unfold bindM. simpl in Hx. rewrite (Hx H1), (IH H2). reflexivity.
Qed.

(** X17.  A template without a placeholder renders to itself, whatever
    the clipboard holds, and the clipboard is not touched. *)
Theorem render_without_placeholder :
  forall (template : value) (cb : ClipboardState),
    slots_of template = [] ->
    Template.render_template template cb = (Ok template, cb).
Proof.
  intros template.
  induction template as [| b | z | s | l IH | d IH] using value_nested_ind;
    intros cb H; try reflexivity.
  - now apply render_str_no_slots.
  - simpl in *. unfold bindM.
    rewrite (render_list_same _ l cb); [reflexivity | | exact H].
    eapply Forall_impl; [|exact IH]. intros x Hx Hs cb0. now apply Hx.
  - simpl in *. unfold bindM.
    rewrite (render_items_same _ d cb); [reflexivity | | exact H].
    eapply Forall_impl; [|exact IH]. intros x Hx Hs cb0. now apply Hx.
Qed.

Lemma render_without_placeholder_witness :
  Template.render_template
    (VDict [("path", VStr "out.txt"); ("lines", VList [VInt 1; VStr "{{ x }}"])])
    (clipboard_after [OpSet "x" (VInt 1)])
  = (Ok (VDict [("path", VStr "out.txt");
                ("lines", VList [VInt 1; VStr "{{ x }}"])]),
     clipboard_after [OpSet "x" (VInt 1)]).
Proof. apply render_without_placeholder. reflexivity. Defined.

Lemma render_list_length (f : value -> M value) xs cb r cb' :
  Template.render_list f xs cb = (Ok r, cb') -> length r = length xs.
Proof.
  revert cb r cb'. induction xs as [|x xs IH]; simpl; intros cb r cb' H.
  - now injection H as <- _.
  - unfold bindM in H. destruct (f x cb) as [[x'|] cb1]; [|discriminate].
    destruct (Template.render_list f xs cb1) as [[r'|] cb2] eqn:E;
      [|discriminate].
    injection H as <- _. simpl. f_equal. exact (IH _ _ _ E).
Qed.

Lemma render_items_keys (f : value -> M value) kvs cb r cb' :
  Template.render_items f kvs cb = (Ok r, cb') -> map fst r = map fst kvs.
Proof.
  revert cb r cb'. induction kvs as [|kv kvs IH]; simpl; intros cb r cb' H.
  - now injection H as <- _.
  - unfold bindM in H. destruct (f (snd kv) cb) as [[v'|] cb1]; [|discriminate].
    destruct (Template.render_items f kvs cb1) as [[r'|] cb2] eqn:E;
      [|discriminate].
    injection H as <- _. simpl. f_equal. exact (IH _ _ _ E).
Qed.

(** X18.  Rendering keeps the shape of the template: a dictionary
    renders to a dictionary with the same keys in the same order, a list
    to a list of the same length, and a number, a boolean or [None] to
    itself with the clipboard untouched. *)
Theorem render_keeps_shape :
  forall (template v : value) (cb cb' : ClipboardState),
    Template.render_template template cb = (Ok v, cb') ->
    match template with
    | VDict d => exists d', v = VDict d' /\ map fst d' = map fst d
    | VList l => exists l', v = VList l' /\ length l' = length l
    | VStr _ => True
    | _ => v = template /\ cb' = cb
    end.
Proof.
  intros [| b | z | s | l | d] v cb cb' H; simpl in H;
    try (injection H as <- <-; now split); [exact I | |].
  - unfold bindM in H.
    destruct (Template.render_list Template.render_template l cb)
      as [[r|] cb1] eqn:E; [|discriminate].
    injection H as <- _. exists r. split; [reflexivity|].
    exact (render_list_length _ _ _ _ _ E).
  - unfold bindM in H.
    destruct (Template.render_items Template.render_template d cb)
      as [[r|] cb1] eqn:E; [|discriminate].
    injection H as <- _. exists r. split; [reflexivity|].
    exact (render_items_keys _ _ _ _ _ E).
Qed.

Lemma render_keeps_shape_witness :
  exists d',
    fst (Template.render_template
           (VDict [("path", VStr "{{p}}"); ("n", VInt 1)])
           (clipboard_after [OpSet "p" (VList [])]))
    = Ok (VDict d')
    /\ map fst d' = ["path"; "n"].
Proof.
  destruct (render_keeps_shape
              (VDict [("path", VStr "{{p}}"); ("n", VInt 1)])
              (VDict [("path", VList []); ("n", VInt 1)])
              (clipboard_after [OpSet "p" (VList [])])
              (Clipboard.record_usage "p" (clipboard_after [OpSet "p" (VList [])]))
              eq_refl)
    as (d' & E & Hk).
  exists d'. split; [rewrite <- E; reflexivity | exact Hk].
Defined.

Lemma first_unknown_none slots names :
  first_unknown slots names = None
  <-> forall n, In n names -> Dict.contains slots n = true.
Proof.
  induction names as [|m names IH]; simpl.
  - split; [intros _ n [] | reflexivity].
  - destruct (Dict.contains slots m) eqn:C.
    + rewrite IH. split.
      * intros H n [<-|Hn]; [exact C | now apply H].
      * intros H n Hn. apply H. now right.
    + split; [discriminate|]. intros H.
      rewrite (H m) in C by now left. discriminate.
Qed.

(** X19.  In a session, [render_template] returns exactly when every
    placeholder of the template names a slot.  When it returns, the slots
    and their sizes are as before and the use count of each slot has
    grown by the number of placeholders of the template that name it. *)
Theorem render_returns_iff_known :
  forall (ops : list cb_op) (template : value),
    ((exists v cb',
         Template.render_template template (clipboard_after ops) = (Ok v, cb'))
     <-> (forall n, In n (slots_of template) ->
                    Clipboard.has n (clipboard_after ops) = true))
    /\ (forall v cb',
           Template.render_template template (clipboard_after ops) = (Ok v, cb') ->
           _slots cb' = _slots (clipboard_after ops)
           /\ _bytes_stored cb' = _bytes_stored (clipboard_after ops)
           /\ forall s, use_count cb' s
                        = (use_count (clipboard_after ops) s
                           + occurrences (slots_of template) s)%Z).
Proof.
  intros ops template.
  destruct (runs_render template) as (pure & R).
  specialize (R (clipboard_after ops)).
  pose proof (first_unknown_none (_slots (clipboard_after ops))
                                 (slots_of template)) as Hiff.
  split; [split|].
  - intros (v & cb' & H). apply Hiff. rewrite R in H.
    destruct (first_unknown (_slots (clipboard_after ops)) (slots_of template));
      [discriminate | reflexivity].
  - intros H. apply Hiff in H. rewrite R, H. eauto.
  - intros v cb' H. rewrite R in H.
    destruct (first_unknown (_slots (clipboard_after ops)) (slots_of template))
      eqn:F; [discriminate|].
    injection H as _ <-. rewrite (known_prefix_all _ _ F).
    destruct (record_all_slots (slots_of template) (clipboard_after ops))
      as [E1 E2].
    split; [exact E1|]. split; [exact E2|].
    apply use_count_record_all; [apply cb_inv_after|].
    now apply Hiff.
Qed.

Lemma render_returns_iff_known_witness :
  exists v cb',
    Template.render_template
      (VList [VStr "{{a}}"; VDict [("k", VStr "{{a}}-{{b}}")]])
      (clipboard_after [OpSet "a" (VInt 1); OpSet "b" (VInt 2)])
    = (Ok v, cb')
    /\ use_count cb' "a" = 2%Z.
Proof.
  destruct (render_returns_iff_known
              [OpSet "a" (VInt 1); OpSet "b" (VInt 2)]
              (VList [VStr "{{a}}"; VDict [("k", VStr "{{a}}-{{b}}")]]))
    as [[_ Hex] Hacc].
  destruct Hex as (v & cb' & H).
  - intros n [<-|[<-|[<-|[]]]]; reflexivity.
  - exists v, cb'. split; [exact H|].
    destruct (Hacc v cb' H) as (_ & _ & Hc). rewrite (Hc "a"). reflexivity.
Defined.

(** ** [execute_template_invoke] *)

(** X20.  A template invocation resolves the placeholders of its
    parameters first.  When one names no slot the tool is not run: the
    [KeyError] of that placeholder comes out and the files are as before.
    When all name a slot the tool is run on the rendered parameters; its
    answer is wrapped with the tool name and the flag, its exception comes
    out as raised.  In all cases the usages of the placeholders resolved
    stay recorded. *)
Theorem template_invoke_outcomes :
  forall (World : Type)
         (execute : value -> value -> World -> result value * World)
         (template tool_name raw_params : value)
         (cb : ClipboardState) (w : World),
    getitem template "tool" = Ok tool_name ->
    getitem template "parameters" = Ok raw_params ->
    match first_unknown (_slots cb) (slots_of raw_params) with
    | Some name =>
        execute_template_invoke World execute template cb w
        = (Raise (missing_slot (_slots cb) name),
           record_all (known_prefix (_slots cb) (slots_of raw_params)) cb,
           w)
    | None =>
        exists rendered,
          Template.render_template raw_params cb
          = (Ok rendered, record_all (slots_of raw_params) cb)
          /\ execute_template_invoke World execute template cb w
             = match execute tool_name rendered w with
               | (Ok r, w') =>
                   (Ok (VDict [("tool_executed", tool_name);
                               ("substitutions_applied", VBool true);
                               ("result", r)]),
                    record_all (slots_of raw_params) cb, w')
               | (Raise e, w') =>
                   (Raise e, record_all (slots_of raw_params) cb, w')
               end
    end.
Proof.
  intros World execute template tool_name raw_params cb w Ht Hp.
  destruct (runs_render raw_params) as (pure & R). specialize (R cb).
  unfold execute_template_invoke. rewrite Ht, Hp, R.
  destruct (first_unknown (_slots cb) (slots_of raw_params)) eqn:F.
  - reflexivity.
  - rewrite (known_prefix_all _ _ F). exists (pure (_slots cb)).
    split; [reflexivity|].
    now destruct (execute tool_name (pure (_slots cb)) w) as [[r|e] w'].
Qed.

Lemma template_invoke_outcomes_witness :
  execute_template_invoke unit failing_tool
    (VDict [("tool", VStr "create_file");
            ("parameters", VDict [("content", VStr "{{code}}")])])
    (clipboard_after [OpSet "other" (VInt 1)]) tt
  = (Raise (missing_slot [("other", VInt 1)] "code"),
     clipboard_after [OpSet "other" (VInt 1)], tt).
Proof.
  exact (template_invoke_outcomes unit failing_tool
           (VDict [("tool", VStr "create_file");
                   ("parameters", VDict [("content", VStr "{{code}}")])])
           (VStr "create_file") (VDict [("content", VStr "{{code}}")])
           (clipboard_after [OpSet "other" (VInt 1)]) tt eq_refl eq_refl).
Defined.

(** ** [_execute_tool_call] and [get_stats] *)

(** X21.  A tool call that returns adds one record to the log, with the
    tool name, the input, the answer, and the clipboard flag set for
    [copy] and [template_invoke] only; a tool call that raises adds none.
    The result store takes the answer of an ordinary tool and nothing
    else: a [copy] or a [template_invoke], also one that ran a tool,
    leaves the store as it was. *)
Theorem tool_call_log :
  forall (re_search : string -> string -> result (option string))
         (World : Type)
         (execute : value -> value -> World -> result value * World)
         (tool_name : string) (tool_input : value) (a : ClipboardAgent World),
    let special := String.eqb tool_name "copy"
                   || String.eqb tool_name "template_invoke" in
    match _execute_tool_call re_search World execute tool_name tool_input a with
    | (Ok r, a') =>
        tool_calls World a'
        = (tool_calls World a ++ [call_record tool_name tool_input special r])%list
        /\ result_store World a'
           = (if special then result_store World a
              else snd (Store.store tool_name r (result_store World a)))
    | (Raise e, a') =>
        tool_calls World a' = tool_calls World a
        /\ result_store World a' = result_store World a
    end.
Proof.
  intros re_search World execute tool_name tool_input a special.
  unfold _execute_tool_call, special.
  destruct (String.eqb tool_name "copy") eqn:E1.
  - destruct (execute_copy re_search (clipboard World a) (result_store World a)
                           tool_input) as [[r|e] cb']; simpl; now split.
  - destruct (String.eqb tool_name "template_invoke") eqn:E2.
    + destruct (getitem tool_input "template") as [template|]; [|now split].
      destruct (execute_template_invoke World execute template
                                        (clipboard World a) (world World a))
        as [[[r|e] cb'] w']; simpl; now split.
    + destruct (execute (VStr tool_name) tool_input (world World a))
        as [[r|e] w']; simpl; now split.
Qed.

Lemma count_calls_snoc name calls n tool_name tool_input flag r :
  count_calls name calls = Ok n ->
  count_calls name (calls ++ [call_record tool_name tool_input flag r])
  = Ok (n + (if String.eqb tool_name name then 1 else 0))%Z.
Proof.
  revert n. induction calls as [|c calls IH]; simpl; intros n H.
  - injection H as <-. now destruct (String.eqb tool_name name).
  - destruct (getitem c "tool") as [t|]; simpl in *; [|discriminate].
    destruct (count_calls name calls) as [m|]; simpl in *; [|discriminate].
    injection H as <-. rewrite (IH m eq_refl). simpl. f_equal. lia.
Qed.

(** What the log and the store of an agent have in common. *)
Lemma agent_counts (World : Type) re_search
      (execute : value -> value -> World -> result value * World)
      calls (a : ClipboardAgent World) :
  (exists copies templates,
      count_calls "copy" (tool_calls World a) = Ok copies
      /\ count_calls "template_invoke" (tool_calls World a) = Ok templates
      /\ Z.of_nat (length (tool_calls World a))
         = (copies + templates
            + Z.of_nat (total_results (result_store World a)))%Z) ->
  exists copies templates,
    count_calls "copy" (tool_calls World (agent_after re_search execute calls a))
    = Ok copies
    /\ count_calls "template_invoke"
                   (tool_calls World (agent_after re_search execute calls a))
       = Ok templates
    /\ Z.of_nat (length (tool_calls World (agent_after re_search execute calls a)))
       = (copies + templates
          + Z.of_nat (total_results
                        (result_store World
                           (agent_after re_search execute calls a))))%Z.
Proof.
  revert a. induction calls as [|[name input] calls IH]; intros a H;
    [exact H|].
  unfold agent_after. simpl fold_left. apply IH. clear IH.
  destruct H as (c & t & Hc & Ht & Hlen). simpl fst. simpl snd.
  unfold _execute_tool_call.
  destruct (String.eqb name "copy") eqn:E1.
  - apply String.eqb_eq in E1. subst name.
    destruct (execute_copy re_search (clipboard World a) (result_store World a)
                           input) as [[r|e] cb']; simpl.
    + exists (c + 1)%Z, t. rewrite (count_calls_snoc _ _ _ _ _ _ _ Hc).
      rewrite (count_calls_snoc _ _ _ _ _ _ _ Ht). simpl String.eqb.
      repeat split; [f_equal; lia|]. rewrite length_app. simpl. lia.
    + now exists c, t.
  - destruct (String.eqb name "template_invoke") eqn:E2.
    + apply String.eqb_eq in E2. subst name.
      destruct (getitem input "template") as [template|];
        [|now exists c, t].
      destruct (execute_template_invoke World execute template
                                        (clipboard World a) (world World a))
        as [[[r|e] cb'] w']; simpl.
      * exists c, (t + 1)%Z. rewrite (count_calls_snoc _ _ _ _ _ _ _ Hc).
        rewrite (count_calls_snoc _ _ _ _ _ _ _ Ht). simpl String.eqb.
        repeat split; [f_equal; lia|]. rewrite length_app. simpl. lia.
      * now exists c, t.
    + destruct (execute (VStr name) input (world World a)) as [[r|e] w'];
        simpl.
      * exists c, t. rewrite (count_calls_snoc _ _ _ _ _ _ _ Hc).
        rewrite (count_calls_snoc _ _ _ _ _ _ _ Ht). rewrite E1, E2.
        repeat split; try (f_equal; lia).
        rewrite length_app, total_results_stored. simpl. lia.
      * now exists c, t.
Qed.

(** X22.  In a session whose [copy] calls name their slot by a string,
    [get_stats] returns, and its counts add up: the tool calls are the
    copies, the template invocations and one call for each reference that
    [stored_results] lists. *)
Theorem stats_add_up :
  forall (World : Type)
         (re_search : string -> string -> result (option string))
         (execute : value -> value -> World -> result value * World)
         (calls : list (string * value)) (w : World) (token_usage : value),
    (forall input v,
        In ("copy", input) calls -> getitem input "slot" = Ok v ->
        exists slot, v = VStr slot) ->
    let a := agent_after re_search execute calls (new_agent w) in
    exists copies templates,
      get_stats token_usage a
      = Ok (VDict [("total_tool_calls",
                    VInt (Z.of_nat (length (tool_calls World a))));
                   ("copy_calls", VInt copies);
                   ("template_invoke_calls", VInt templates);
                   ("clipboard_slots",
                    VList (map VStr (Clipboard.list_slots (clipboard World a))));
                   ("stored_results",
                    VList (map VStr (Store.list_sources (result_store World a))));
                   ("token_usage", token_usage);
                   ("token_savings",
                    estimate_value
                      (Clipboard.get_token_savings_estimate
                         (clipboard World a)))])
      /\ Z.of_nat (length (tool_calls World a))
         = (copies + templates
            + Z.of_nat (length (Store.list_sources (result_store World a))))%Z.
Proof.
  intros World re_search execute calls w token_usage _ a.
  destruct (agent_counts World re_search execute calls (new_agent w))
    as (c & t & Hc & Ht & Hlen).
  { exists 0%Z, 0%Z. repeat split. }
  fold a in Hc, Ht, Hlen. exists c, t. split.
  - unfold get_stats. now rewrite Hc, Ht.
  - now rewrite length_list_sources.
Qed.

Lemma stats_add_up_witness :
  let a := agent_after (fun _ _ => Ok None)
             (fun _ _ w => (Ok (VStr "text"), w))
             [("read_file", VDict [("path", VStr "f")]);
              ("copy", VDict [("slot", VStr "s"); ("source", VStr "last")])]
             (new_agent tt) in
  exists copies templates,
    Z.of_nat (length (tool_calls unit a))
    = (copies + templates
       + Z.of_nat (length (Store.list_sources (result_store unit a))))%Z.
Proof.
  destruct (stats_add_up unit (fun _ _ => Ok None)
              (fun _ _ w => (Ok (VStr "text"), w))
              [("read_file", VDict [("path", VStr "f")]);
               ("copy", VDict [("slot", VStr "s"); ("source", VStr "last")])]
              tt (VDict [("input", VInt 0); ("output", VInt 0)]))
    as (copies & templates & _ & H).
  - intros input v [E|[E|[]]] G; [discriminate E|].
    injection E as <-. injection G as <-. now exists "s".
  - now exists copies, templates.
Defined.

(** ** tools.py *)

(** X23.  A tool name that is none of the five known ones is answered
    with an error value, not with an exception; the call is logged and the
    error value is stored under the name like a result, so that ["last"]
    resolves to it. *)
Theorem unknown_tool_is_stored :
  forall (Files : Type)
         (create read : value -> Files -> result value * Files)
         (re_search : string -> string -> result (option string))
         (name : string) (input : value) (a : ClipboardAgent Files),
    String.eqb name "copy" = false ->
    String.eqb name "template_invoke" = false ->
    String.eqb name "create_file" = false ->
    String.eqb name "read_file" = false ->
    String.eqb name "http_request" = false ->
    let err := VDict [("error", VStr ("Unknown tool: " ++ name))] in
    let a' := mkAgent Files (clipboard Files a)
                      (Store.stored name err (result_store Files a))
                      (tool_calls Files a ++ [call_record name input false err])
                      (world Files a) in
    _execute_tool_call re_search Files (execute_tool Files create read)
                       name input a
    = (Ok err, a')
    /\ Store.get "last" (result_store Files a') = Ok (mkEntry name err).
Proof.
  intros Files create read re_search name input a H1 H2 H3 H4 H5 err a'.
  split; [|reflexivity].
  unfold _execute_tool_call, execute_tool. now rewrite H1, H2, H3, H4, H5.
Qed.

Lemma unknown_tool_is_stored_witness :
  fst (_execute_tool_call (fun _ _ => Ok None) unit
         (execute_tool unit (fun _ w => (Raise TypeError, w))
                       (fun _ w => (Raise TypeError, w)))
         "delete_file" (VDict []) (new_agent tt))
  = Ok (VDict [("error", VStr "Unknown tool: delete_file")]).
Proof.
  destruct (unknown_tool_is_stored unit (fun _ w => (Raise TypeError, w))
              (fun _ w => (Raise TypeError, w)) (fun _ _ => Ok None)
              "delete_file" (VDict []) (new_agent tt)
              eq_refl eq_refl eq_refl eq_refl eq_refl) as [H _].
  now rewrite H.
Defined.

(** X24.  The mock request answers with what it was asked: the method
    and the url of the arguments are found again under [request.method]
    and [request.url] of the answer, and headers or a body that are not
    given come back as [{}] and [None]. *)
Theorem http_request_echo :
  forall (d : Dict.t value) (method url : value),
    Dict.get d "method" = Some method ->
    Dict.get d "url" = Some url ->
    exists r,
      execute_http_request (VDict d) = Ok r
      /\ _extract_by_json_path r "success" = Ok (VBool true)
      /\ _extract_by_json_path r "request.method" = Ok method
      /\ _extract_by_json_path r "request.url" = Ok url
      /\ _extract_by_json_path r "request.headers"
         = Ok (Dict.get_default d "headers" (VDict []))
      /\ _extract_by_json_path r "request.body"
         = Ok (Dict.get_default d "body" VNone).
Proof.
  intros d method url Hm Hu. unfold execute_http_request. simpl.
  rewrite Hm, Hu. simpl. eexists. split; [reflexivity|]. repeat split.
Qed.

Lemma http_request_echo_witness :
  exists r,
    execute_http_request
      (VDict [("method", VStr "GET"); ("url", VStr "http://x")]) = Ok r
    /\ _extract_by_json_path r "request.url" = Ok (VStr "http://x")
    /\ _extract_by_json_path r "request.body" = Ok VNone.
Proof.
  destruct (http_request_echo
              [("method", VStr "GET"); ("url", VStr "http://x")]
              (VStr "GET") (VStr "http://x") eq_refl eq_refl)
    as (r & H & _ & _ & Hu & _ & Hb).
  exists r. split; [exact H|]. split; [exact Hu | exact Hb].
Defined.
